(** * s3filereplicator: the SQS-to-S3 relay of [lambda_function.py]

    A shallow embedding of [lambda_handler], [copy_s3_object] and
    [validate_s3_notification], and the properties of the batch relay
    processor proved over it.

    Python values are the ones [json.loads] can build.  Statements run in
    a state-and-exception monad: what a statement did to the world (log
    lines, calls to the storage client, the handler's counters) stays done
    when it raises, as in Python.  Only exceptions deriving from
    [Exception] are modelled; the two library calls of the program,
    [json.loads] and [s3_client.copy_object], are parameters. *)

From Stdlib Require Import ZArith QArith Lia Bool Ascii String.
From stdpp Require Import base list strings gmap pretty.

Set Warnings "-register-all".
Local Open Scope string_scope.
Local Open Scope list_scope.
Local Open Scope general_if_scope.

(** ** Python values *)

Module Py.

(** A Python [float]: [json.loads] also accepts [NaN] and [Infinity]. *)
Inductive pyfloat : Type :=
| FNaN
| FInf (negative : bool)
| FFinite (q : Q).

(** The Python objects [json.loads] returns. A [dict] keeps its insertion
    order, so it is a list of entries, looked up from the front. *)
Inductive value : Type :=
| VNone
| VBool (b : bool)
| VInt (z : Z)
| VFloat (f : pyfloat)
| VStr (s : string)
| VList (items : list value)
| VDict (entries : list (string * value)).

(** The exceptions (all below [Exception]) the program can meet. *)
Inductive exn : Type :=
| KeyError (key : string)
| TypeError
| AttributeError
| JSONDecodeError
| ClientError (code : string)
| OtherError (name : string).

(** How the evaluation of an expression or statement ends. *)
Inductive outcome (A : Type) : Type :=
| Returned (a : A)
| Raised (e : exn).
Arguments Returned {A} a.
Arguments Raised {A} e.

Definition obind {A B} (o : outcome A) (k : A -> outcome B) : outcome B :=
  match o with
  | Returned a => k a
  | Raised e => Raised e
  end.

Fixpoint dict_lookup (key : string) (entries : list (string * value)) : option value :=
  match entries with
  | [] => None
  | (k, v) :: rest => if String.eqb k key then Some v else dict_lookup key rest
  end.

Fixpoint is_substring (needle hay : string) : bool :=
  String.prefix needle hay ||
  match hay with
  | EmptyString => false
  | String _ rest => is_substring needle rest
  end.

(** [v == s] for a string literal [s]. *)
Definition eq_str (v : value) (s : string) : bool :=
  match v with
  | VStr s' => String.eqb s' s
  | _ => false
  end.

(** [bool(v)]. *)
Definition truthy (v : value) : bool :=
  match v with
  | VNone => false
  | VBool b => b
  | VInt z => negb (z =? 0)%Z
  | VFloat (FFinite q) => negb (Qnum q =? 0)%Z
  | VFloat _ => true
  | VStr s => negb (String.eqb s "")
  | VList items => match items with [] => false | _ => true end
  | VDict entries => match entries with [] => false | _ => true end
  end.

(** [key in v] for a string literal [key]. *)
Definition contains (key : string) (v : value) : outcome bool :=
  match v with
  | VDict entries =>
      Returned (match dict_lookup key entries with Some _ => true | None => false end)
  | VList items => Returned (existsb (fun x => eq_str x key) items)
  | VStr s => Returned (is_substring key s)
  | _ => Raised TypeError
  end.

(** [v[key]] for a string literal [key]. *)
Definition getitem (v : value) (key : string) : outcome value :=
  match v with
  | VDict entries =>
      match dict_lookup key entries with
      | Some x => Returned x
      | None => Raised (KeyError key)
      end
  | _ => Raised TypeError
  end.

(** [v.get(key, default)]: only a [dict] has the method. *)
Definition get (v : value) (key : string) (default : value) : outcome value :=
  match v with
  | VDict entries =>
      match dict_lookup key entries with
      | Some x => Returned x
      | None => Returned default
      end
  | _ => Raised AttributeError
  end.

Fixpoint chars (s : string) : list value :=
  match s with
  | EmptyString => []
  | String c rest => VStr (String c EmptyString) :: chars rest
  end.

(** The elements [for x in v] visits. *)
Definition iter (v : value) : outcome (list value) :=
  match v with
  | VList items => Returned items
  | VStr s => Returned (chars s)
  | VDict entries => Returned (map (fun kv => VStr (fst kv)) entries)
  | _ => Raised TypeError
  end.

(** [len(v)]. *)
Definition len (v : value) : outcome nat :=
  match v with
  | VList items => Returned (length items)
  | VStr s => Returned (String.length s)
  | VDict entries => Returned (length entries)
  | _ => Raised TypeError
  end.

End Py.
Import Py.

(** ** Statements: state and exceptions *)

Definition M (St A : Type) : Type := St -> outcome A * St.

Definition ret {St A} (a : A) : M St A := fun st => (Returned a, st).

Definition raise {St A} (e : exn) : M St A := fun st => (Raised e, st).

Definition bind {St A B} (m : M St A) (k : A -> M St B) : M St B :=
  fun st =>
    match m st with
    | (Returned a, st') => k a st'
    | (Raised e, st') => (Raised e, st')
    end.

(** An expression that may raise and touches no state. *)
Definition eval {St A} (o : outcome A) : M St A := fun st => (o, st).

(** [try: body / except Exception as e: handler e]. *)
Definition try_except {St A} (body : M St A) (handler : exn -> M St A) : M St A :=
  fun st =>
    match body st with
    | (Returned a, st') => (Returned a, st')
    | (Raised e, st') => handler e st'
    end.

Definition modify {St} (f : St -> St) : M St unit := fun st => (Returned tt, f st).

Declare Scope stmt_scope.
Delimit Scope stmt_scope with stmt.
Notation "x <- m ;; k" := (bind m (fun x => k))
  (at level 100, m at next level, right associativity) : stmt_scope.
Notation "m ;; k" := (bind m (fun _ => k))
  (at level 100, right associativity) : stmt_scope.
Local Open Scope stmt_scope.

(** [for x in items: body x]; a raise in the body leaves the loop. *)
Fixpoint for_each {St A} (items : list A) (body : A -> M St unit) : M St unit :=
  match items with
  | [] => ret tt
  | x :: rest => body x ;; for_each rest body
  end.

(** ** The world of one invocation *)

(** One call of [s3_client.copy_object], with its keyword arguments. *)
Record CopyRequest : Type := {
  CopySource : value * value;  (* {'Bucket': _, 'Key': _} *)
  Bucket : string;
  Key : value;
  MetadataDirective : string
}.

(** How a call of [copy_object] ends: it returns, or raises a
    [ClientError] whose response carries an error code, or raises
    something else (a parameter or a connection error, say). *)
Inductive copy_result : Type :=
| CopyDone
| CopyClientError (code : string)
| CopyFailed (name : string).

Inductive level : Type := INFO | WARNING | ERROR.

(** The messages of the program's f-strings, by their arguments. *)
Inductive message : Type :=
| MsgProcessing (n : nat)
| MsgUnexpectedFormat (message_body : value)
| MsgErrorProcessing (e : exn)
| MsgComplete (success_count error_count : nat)
| MsgCopying (source_bucket source_key : value) (destination_bucket : string)
| MsgCopied (source_key : value)
| MsgNotFound (source_key : value)
| MsgErrorCopying (source_key : value) (e : exn)
| MsgUnexpectedErrorCopying (source_key : value) (e : exn).

(** The handler's result; [body] is the text [json.dumps] returns. *)
Record Response : Type := {
  statusCode : Z;
  body : string
}.

Definition dquote : string := String "034"%char EmptyString.

(** [json.dumps({'success_count': s, 'error_count': e})]. *)
Definition json_dumps_counts (s e : nat) : string :=
  "{" +:+ dquote +:+ "success_count" +:+ dquote +:+ ": " +:+ pretty s +:+
  ", " +:+ dquote +:+ "error_count" +:+ dquote +:+ ": " +:+ pretty e +:+ "}".

(** Decimal digits, to read the counters back from the text. *)
Definition is_digit (c : ascii) : bool :=
  (48 <=? nat_of_ascii c)%nat && (nat_of_ascii c <=? 57)%nat.

Fixpoint all_digits (s : string) : bool :=
  match s with
  | EmptyString => true
  | String c rest => is_digit c && all_digits rest
  end.

Definition starts_without_digit (s : string) : bool :=
  match s with
  | EmptyString => false
  | String c _ => negb (is_digit c)
  end.

(** The two library calls of the program: [json.loads] on a text, and
    [copy_object] of the storage client, which answers from the state
    [S3] of the storage service and may change it. *)
Class JsonDecoder : Type :=
  json_loads : string -> option value.

Class S3Client (S3 : Type) : Type :=
  s3_copy_object : CopyRequest -> S3 -> copy_result * S3.

Section Relay.

Context {decoder : JsonDecoder} {S3 : Type} {client : S3Client S3}.

(** What the program can read and change outside its own variables:
    [os.environ], the storage service, the log, and the calls of
    [copy_object] made so far (oldest first). *)
Record World : Type := {
  environ : gmap string string;
  s3 : S3;
  log : list (level * message);
  copy_calls : list CopyRequest
}.

Definition add_log (lv : level) (msg : message) (w : World) : World :=
  {| environ := environ w; s3 := s3 w;
     log := log w ++ [(lv, msg)]; copy_calls := copy_calls w |}.

Definition add_call (req : CopyRequest) (s' : S3) (w : World) : World :=
  {| environ := environ w; s3 := s';
     log := log w; copy_calls := copy_calls w ++ [req] |}.

Definition logger (lv : level) (msg : message) : M World unit :=
  modify (add_log lv msg).

(** [os.environ[name]]. *)
Definition os_environ (name : string) : M World string :=
  fun w =>
    match environ w !! name with
    | Some x => (Returned x, w)
    | None => (Raised (KeyError name), w)
    end.

(** [s3_client.copy_object(...)]. *)
Definition s3_client_copy_object (req : CopyRequest) : M World unit :=
  fun w =>
    let (r, s') := s3_copy_object req (s3 w) in
    let w' := add_call req s' w in
    match r with
    | CopyDone => (Returned tt, w')
    | CopyClientError code => (Raised (ClientError code), w')
    | CopyFailed name => (Raised (OtherError name), w')
    end.

(** *** [copy_s3_object] *)

Definition copy_s3_object (source_bucket source_key : value) : M World unit :=
  destination_bucket <- os_environ "DESTINATION_BUCKET" ;;
  try_except
    (logger INFO (MsgCopying source_bucket source_key destination_bucket) ;;
     s3_client_copy_object
       {| CopySource := (source_bucket, source_key);
          Bucket := destination_bucket;
          Key := source_key;
          MetadataDirective := "COPY" |} ;;
     logger INFO (MsgCopied source_key))
    (fun e =>
       match e with
       | ClientError error_code =>
           if String.eqb error_code "NoSuchKey"
           then logger WARNING (MsgNotFound source_key)
           else (logger ERROR (MsgErrorCopying source_key e) ;; raise e)
       | _ =>
           logger ERROR (MsgUnexpectedErrorCopying source_key e) ;; raise e
       end).

(** *** [lambda_handler] *)

(** The handler's frame: the world and the two local counters. *)
Record Frame : Type := {
  world : World;
  success_count : nat;
  error_count : nat
}.

Definition set_world (w' : World) (fr : Frame) : Frame :=
  {| world := w'; success_count := success_count fr;
     error_count := error_count fr |}.

Definition add_success (fr : Frame) : Frame :=
  {| world := world fr; success_count := success_count fr + 1;
     error_count := error_count fr |}.

Definition add_error (fr : Frame) : Frame :=
  {| world := world fr; success_count := success_count fr;
     error_count := error_count fr + 1 |}.

(** Run a statement of the world in the handler's frame. *)
Definition in_world {A} (m : M World A) : M Frame A :=
  fun fr => let (r, w') := m (world fr) in (r, set_world w' fr).

(** [success_count += 1] and [error_count += 1]. *)
Definition incr_success : M Frame unit := modify add_success.
Definition incr_error : M Frame unit := modify add_error.

(** [json.loads(x)]: [x] is a value of the event. *)
Definition loads (x : value) : outcome value :=
  match x with
  | VStr s =>
      match json_loads s with
      | Some v => Returned v
      | None => Raised JSONDecodeError
      end
  | _ => Raised TypeError
  end.

(** The body of the inner loop, for one [s3_record]. *)
Definition process_s3_record (s3_record : value) : M Frame unit :=
  event_source <- eval (get s3_record "eventSource" VNone) ;;
  if eq_str event_source "aws:s3" then
    bucket_name <- eval (obind (obind (getitem s3_record "s3")
                                  (fun x => getitem x "bucket"))
                           (fun x => getitem x "name")) ;;
    object_key <- eval (obind (obind (getitem s3_record "s3")
                                 (fun x => getitem x "object"))
                          (fun x => getitem x "key")) ;;
    in_world (copy_s3_object bucket_name object_key) ;;
    incr_success
  else ret tt.

(** [json.loads(record['body'])]. *)
Definition message_body_of (record : value) : outcome value :=
  obind (getitem record "body") loads.

(** The [try] block, for one [record] of the event. *)
Definition process_message (record : value) : M Frame unit :=
  message_body <- eval (message_body_of record) ;;
  has_records <- eval (contains "Records" message_body) ;;
  if (has_records : bool) then
    s3_records <- eval (obind (getitem message_body "Records") iter) ;;
    for_each s3_records process_s3_record
  else
    bucket_name <- eval (obind (get message_body "bucket" (VDict []))
                           (fun x => get x "name" VNone)) ;;
    object_key <- eval (obind (get message_body "object" (VDict []))
                          (fun x => get x "key" VNone)) ;;
    if truthy bucket_name && truthy object_key then
      in_world (copy_s3_object bucket_name object_key) ;;
      incr_success
    else
      in_world (logger WARNING (MsgUnexpectedFormat message_body)) ;;
      incr_error.

(** What the [except Exception as e] clause does to the frame. *)
Definition caught (e : exn) (fr : Frame) : Frame :=
  add_error (set_world (add_log ERROR (MsgErrorProcessing e) (world fr)) fr).

(** The [except Exception as e] clause. *)
Definition on_exception (e : exn) : M Frame unit :=
  in_world (logger ERROR (MsgErrorProcessing e)) ;;
  incr_error.

(** The [try] statement of the outer loop, for one [record]. *)
Definition handle_record (record : value) : M Frame unit :=
  try_except (process_message record) on_exception.

Definition lambda_handler (event : value) : M World Response :=
  n <- eval (obind (get event "Records" (VList [])) len) ;;
  logger INFO (MsgProcessing n) ;;
  records <- eval (obind (get event "Records" (VList [])) iter) ;;
  fun w =>
    let (r, fr) := for_each records handle_record
                     {| world := w; success_count := 0; error_count := 0 |} in
    match r with
    | Raised e => (Raised e, world fr)
    | Returned _ =>
        (logger INFO (MsgComplete (success_count fr) (error_count fr)) ;;
         ret {| statusCode := 200;
                body := json_dumps_counts (success_count fr) (error_count fr) |})
          (world fr)
    end.

(** *** [validate_s3_notification] *)

(** [a and b], where [b] is evaluated only when [a] is true. *)
Definition and_then (a : outcome bool) (b : outcome bool) : outcome bool :=
  obind a (fun x => if (x : bool) then b else Returned false).

(** The test of the [if] in the loop, for one [record]. *)
Definition valid_s3_record (record : value) : outcome bool :=
  and_then (obind (get record "eventSource" VNone)
              (fun x => Returned (eq_str x "aws:s3")))
  (and_then (contains "s3" record)
  (and_then (obind (getitem record "s3") (contains "bucket"))
            (obind (getitem record "s3") (contains "object")))).

(** The loop: [return True] at the first record that passes the test. *)
Fixpoint any_valid_s3_record (records : list value) : outcome bool :=
  match records with
  | [] => Returned false
  | record :: rest =>
      obind (valid_s3_record record)
        (fun ok => if (ok : bool) then Returned true else any_valid_s3_record rest)
  end.

Definition validate_s3_notification (message_body : value) : outcome bool :=
  obind (contains "Records" message_body) (fun has_records =>
  if (has_records : bool) then
    obind (obind (getitem message_body "Records") iter) any_valid_s3_record
  else
    and_then (contains "bucket" message_body)
    (and_then (contains "object" message_body)
    (and_then (obind (obind (getitem message_body "bucket")
                        (fun x => get x "name" VNone))
                 (fun x => Returned (truthy x)))
              (obind (obind (getitem message_body "object")
                        (fun x => get x "key" VNone))
                 (fun x => Returned (truthy x)))))).

End Relay.

Arguments World : clear implicits.
Arguments Frame : clear implicits.

(** ** The vocabulary of the specification *)

(** The envelopes of an input batch: the event is a container whose
    ['Records'], when present, is a sequence. *)
Definition batch_records (event : value) : option (list value) :=
  match event with
  | VDict entries =>
      match dict_lookup "Records" entries with
      | None => Some []
      | Some (VList records) => Some records
      | Some _ => None
      end
  | _ => None
  end.

Definition is_object (v : value) : bool :=
  match v with
  | VDict _ => true
  | _ => false
  end.

(** An inner record tagged as a storage event. *)
Definition is_storage_record (s3_record : value) : bool :=
  match get s3_record "eventSource" VNone with
  | Returned tag => eq_str tag "aws:s3"
  | Raised _ => false
  end.

Definition count_storage (s3_records : list value) : nat :=
  sum_list (map (fun r => if is_storage_record r then 1 else 0) s3_records).

(** The value at a path of keys through JSON objects, when every step
    of the path is there. *)
Fixpoint field (path : list string) (v : value) : option value :=
  match path with
  | [] => Some v
  | key :: rest =>
      match v with
      | VDict entries =>
          match dict_lookup key entries with
          | Some x => field rest x
          | None => None
          end
      | _ => None
      end
  end.

(** A part of a reference that is missing or empty. *)
Definition missing_or_empty (part : option value) : bool :=
  match part with
  | None => true
  | Some v => negb (truthy v)
  end.

(** An entry that, when present, is a JSON object. *)
Definition object_if_present (entry : option value) : bool :=
  match entry with
  | None => true
  | Some v => is_object v
  end.

(** The specification's reading of the validator, in its words: a
    wrapper is valid when at least one inner record has a storage
    event-source and a populated bucket/object reference; a direct
    reference is valid when its bucket name and its object key are both
    non-empty; everything else is not valid. *)
Definition has_populated_reference (s3_record : value) : bool :=
  match field ["s3"; "bucket"] s3_record, field ["s3"; "object"] s3_record with
  | Some _, Some _ => true
  | _, _ => false
  end.

Definition spec_is_valid_reference (message_body : value) : bool :=
  match field ["Records"] message_body with
  | Some (VList s3_records) =>
      existsb (fun r => is_storage_record r && has_populated_reference r) s3_records
  | Some _ => false
  | None =>
      negb (missing_or_empty (field ["bucket"; "name"] message_body)) &&
      negb (missing_or_empty (field ["object"; "key"] message_body))
  end.

(** Bodies that follow the two schemas as far as their shape goes: the
    inner records of a wrapper are JSON objects, and so is every ['s3'],
    ['bucket'] and ['object'] that is present. *)
Definition well_formed_record (s3_record : value) : bool :=
  match s3_record with
  | VDict entries => object_if_present (dict_lookup "s3" entries)
  | _ => false
  end.

Definition well_formed_body (message_body : value) : bool :=
  match message_body with
  | VDict entries =>
      match dict_lookup "Records" entries with
      | Some (VList s3_records) => forallb well_formed_record s3_records
      | Some _ => false
      | None =>
          object_if_present (dict_lookup "bucket" entries) &&
          object_if_present (dict_lookup "object" entries)
      end
  | _ => false
  end.

(** The call [copy_s3_object] makes for a source and a destination. *)
Definition copy_request (source_bucket source_key : value)
    (destination_bucket : string) : CopyRequest :=
  {| CopySource := (source_bucket, source_key);
     Bucket := destination_bucket;
     Key := source_key;
     MetadataDirective := "COPY" |}.

(** The reference the handler reads in a direct-form body, and in an
    inner record of a wrapper. *)
Definition direct_reference (message_body : value) : outcome (value * value) :=
  obind (obind (get message_body "bucket" (VDict []))
           (fun x => get x "name" VNone)) (fun bucket_name =>
  obind (obind (get message_body "object" (VDict []))
           (fun x => get x "key" VNone)) (fun object_key =>
  Returned (bucket_name, object_key))).

Definition storage_reference (s3_record : value) : outcome (value * value) :=
  obind (obind (obind (getitem s3_record "s3") (fun x => getitem x "bucket"))
           (fun x => getitem x "name")) (fun bucket_name =>
  obind (obind (obind (getitem s3_record "s3") (fun x => getitem x "object"))
           (fun x => getitem x "key")) (fun object_key =>
  Returned (bucket_name, object_key))).

(** An envelope whose handling comes to one call
    [copy_s3_object bucket_name object_key]: a direct reference with both
    parts true, or a wrapper of one storage record. *)
Definition copies_once {decoder : JsonDecoder} (record : value)
    (bucket_name object_key : value) : Prop :=
  exists entries,
    message_body_of record = Returned (VDict entries) /\
    ((dict_lookup "Records" entries = None /\
      direct_reference (VDict entries) = Returned (bucket_name, object_key) /\
      truthy bucket_name && truthy object_key = true) \/
     (exists s3_record,
        dict_lookup "Records" entries = Some (VList [s3_record]) /\
        is_storage_record s3_record = true /\
        storage_reference s3_record = Returned (bucket_name, object_key))).

(** A call of [copy_object] that writes to the configured destination
    bucket, under the key of the source, and asks for the source's
    metadata to be copied. *)
Definition faithful_copy (env : gmap string string) (req : CopyRequest) : Prop :=
  env !! "DESTINATION_BUCKET" = Some (Bucket req) /\
  Key req = snd (CopySource req) /\
  MetadataDirective req = "COPY".

(** [w'] is [w] after some more faithful calls of [copy_object]. *)
Definition extends {S3} (w w' : World S3) : Prop :=
  environ w' = environ w /\
  exists calls, copy_calls w' = copy_calls w ++ calls /\
                Forall (faithful_copy (environ w)) calls.

Definition frame_extends {S3} (fr fr' : Frame S3) : Prop :=
  extends (world fr) (world fr').

(** The counters of [fr'] are those of [fr] or more. *)
Definition counters_grow {S3} (fr fr' : Frame S3) : Prop :=
  success_count fr <= success_count fr' /\
  error_count fr <= error_count fr'.

(** A statement that takes every state to a related one, however it
    ends. *)
Definition preserves {St A} (R : St -> St -> Prop) (m : M St A) : Prop :=
  forall st, R st (snd (m st)).

(** The units of work of one envelope: its inner records when its body
    is a notification wrapper (a JSON object whose ['Records'] is an
    array), and the envelope itself otherwise. *)
Definition units_of {decoder : JsonDecoder} (record : value) : nat :=
  match message_body_of record with
  | Returned (VDict entries) =>
      match dict_lookup "Records" entries with
      | Some (VList s3_records) => length s3_records
      | _ => 1
      end
  | _ => 1
  end.

Definition units_attempted {decoder : JsonDecoder} (records : list value) : nat :=
  sum_list (map units_of records).

(** ** The errors of a batch *)

(** The envelope takes the branch of the incomplete direct reference:
    its body is read, has no ['Records'], and the bucket name or the
    object key the handler finds in it is not true. *)
Definition takes_warning_branch {decoder : JsonDecoder} (record : value) : bool :=
  match message_body_of record with
  | Returned message_body =>
      match contains "Records" message_body with
      | Returned false =>
          match direct_reference message_body with
          | Returned (bucket_name, object_key) =>
              negb (truthy bucket_name && truthy object_key)
          | Raised _ => false
          end
      | _ => false
      end
  | Raised _ => false
  end.

(** The envelope ends in an error when it is handled from [fr]: its
    [try] block raises, or it takes the warning branch. *)
Definition ends_in_error {decoder : JsonDecoder} {S3} {client : S3Client S3}
    (record : value) (fr : Frame S3) : bool :=
  match fst (process_message record fr) with
  | Raised _ => true
  | Returned _ => takes_warning_branch record
  end.

(** The envelopes of a batch that end in an error, each handled from
    the frame the ones before it left. *)
Fixpoint errors_along {decoder : JsonDecoder} {S3} {client : S3Client S3}
    (records : list value) (fr : Frame S3) : nat :=
  match records with
  | [] => 0
  | record :: rest =>
      (if ends_in_error record fr then 1 else 0)
      + errors_along rest (snd (handle_record record fr))
  end.

(** ** What the counters and the log account for *)

(** The values [len] and [for] accept. *)
Definition has_len (v : value) : bool :=
  match v with
  | VList _ | VStr _ | VDict _ => true
  | _ => false
  end.

(** The two log lines written where [error_count] is incremented: the
    error line of the per-envelope catch, and the warning of an incomplete
    direct reference. *)
Definition reports_error (entry : level * message) : bool :=
  match entry with
  | (ERROR, MsgErrorProcessing _) => true
  | (WARNING, MsgUnexpectedFormat _) => true
  | _ => false
  end.

Definition error_lines (lines : list (level * message)) : nat :=
  sum_list_with (fun entry => if reports_error entry then 1 else 0) lines.

(** From [fr] to [fr'], as many errors were counted as lines reporting
    one were logged. *)
Definition balanced {S3} (fr fr' : Frame S3) : Prop :=
  error_count fr' + error_lines (log (world fr))
  = error_count fr + error_lines (log (world fr')).

(** From [fr] to [fr'], every success counted had its call of
    [copy_object], and every call was counted as a success or an error. *)
Definition accounted {S3} (fr fr' : Frame S3) : Prop :=
  length (copy_calls (world fr)) + success_count fr'
  <= length (copy_calls (world fr')) + success_count fr /\
  length (copy_calls (world fr')) + success_count fr + error_count fr
  <= length (copy_calls (world fr)) + success_count fr' + error_count fr'.

(** A storage client whose [copy_object] either returns or reports that
    the source object is not there. *)
Definition never_fails {S3} (client : S3Client S3) : Prop :=
  forall req s,
    match fst (s3_copy_object req s) with
    | CopyDone => True
    | CopyClientError code => code = "NoSuchKey"
    | CopyFailed _ => False
    end.

(** How [message_body_of] can raise on a record. *)
Definition unreadable {decoder : JsonDecoder} (record : value) (e : exn) : Prop :=
  match record with
  | VDict entries =>
      match dict_lookup "body" entries with
      | None => e = KeyError "body"
      | Some (VStr text) => json_loads text = None /\ e = JSONDecodeError
      | Some _ => e = TypeError
      end
  | _ => e = TypeError
  end.

(** ** A decoder and a store to run the program on

    Instances of the two parameters: a decoder for JSON texts without
    escapes, fractions or exponents, and an object store that copies
    within a fixed set of buckets. *)

Module Sample.

Definition is_ws (c : ascii) : bool :=
  match c with
  | " "%char | "009"%char | "010"%char | "013"%char => true
  | _ => false
  end.

Fixpoint skip_ws (s : string) : string :=
  match s with
  | String c rest => if is_ws c then skip_ws rest else s
  | EmptyString => s
  end.

Definition digit_of (c : ascii) : option Z :=
  let n := nat_of_ascii c in
  if (48 <=? n)%nat && (n <=? 57)%nat then Some (Z.of_nat (n - 48)) else None.

Fixpoint read_digits (acc : Z) (s : string) : Z * string :=
  match s with
  | String c rest =>
      match digit_of c with
      | Some d => read_digits (10 * acc + d) rest
      | None => (acc, s)
      end
  | EmptyString => (acc, s)
  end.

Definition read_int (s : string) : option (Z * string) :=
  match s with
  | String "-"%char (String c _ as rest) =>
      match digit_of c with
      | Some _ => let (n, r) := read_digits 0 rest in Some ((- n)%Z, r)
      | None => None
      end
  | String c _ =>
      match digit_of c with
      | Some _ => Some (read_digits 0 s)
      | None => None
      end
  | EmptyString => None
  end.

(** The characters up to the closing quote. *)
Fixpoint read_string (s : string) : option (string * string) :=
  match s with
  | String c rest =>
      if Ascii.eqb c "034"%char then Some (EmptyString, rest)
      else if Ascii.eqb c "\"%char then None
      else match read_string rest with
           | Some (x, r) => Some (String c x, r)
           | None => None
           end
  | EmptyString => None
  end.

Definition drop_prefix (p s : string) : option string :=
  if String.prefix p s
  then Some (String.substring (String.length p) (String.length s - String.length p) s)
  else None.

Fixpoint parse_value (fuel : nat) (s : string) {struct fuel} : option (value * string) :=
  match fuel with
  | O => None
  | S fuel' =>
      match skip_ws s with
      | String "["%char rest =>
          match skip_ws rest with
          | String "]"%char r => Some (VList [], r)
          | _ => match parse_items fuel' rest with
                 | Some (items, r) => Some (VList items, r)
                 | None => None
                 end
          end
      | String "{"%char rest =>
          match skip_ws rest with
          | String "}"%char r => Some (VDict [], r)
          | _ => match parse_members fuel' rest with
                 | Some (entries, r) => Some (VDict entries, r)
                 | None => None
                 end
          end
      | String "034"%char rest =>
          match read_string rest with
          | Some (x, r) => Some (VStr x, r)
          | None => None
          end
      | s' =>
          match drop_prefix "null" s', drop_prefix "true" s', drop_prefix "false" s' with
          | Some r, _, _ => Some (VNone, r)
          | _, Some r, _ => Some (VBool true, r)
          | _, _, Some r => Some (VBool false, r)
          | _, _, _ =>
              match read_int s' with
              | Some (n, r) => Some (VInt n, r)
              | None => None
              end
          end
      end
  end
with parse_items (fuel : nat) (s : string) {struct fuel} : option (list value * string) :=
  match fuel with
  | O => None
  | S fuel' =>
      match parse_value fuel' s with
      | Some (v, r) =>
          match skip_ws r with
          | String ","%char r' =>
              match parse_items fuel' r' with
              | Some (vs, r'') => Some (v :: vs, r'')
              | None => None
              end
          | String "]"%char r' => Some ([v], r')
          | _ => None
          end
      | None => None
      end
  end
with parse_members (fuel : nat) (s : string) {struct fuel}
  : option (list (string * value) * string) :=
  match fuel with
  | O => None
  | S fuel' =>
      match skip_ws s with
      | String "034"%char rest =>
          match read_string rest with
          | Some (k, r) =>
              match skip_ws r with
              | String ":"%char r' =>
                  match parse_value fuel' r' with
                  | Some (v, r'') =>
                      match skip_ws r'' with
                      | String ","%char r3 =>
                          match parse_members fuel' r3 with
                          | Some (kvs, r4) => Some ((k, v) :: kvs, r4)
                          | None => None
                          end
                      | String "}"%char r3 => Some ([(k, v)], r3)
                      | _ => None
                      end
                  | None => None
                  end
              | _ => None
              end
          | None => None
          end
      | _ => None
      end
  end.

Definition decode (s : string) : option value :=
  match parse_value (2 * String.length s + 2) s with
  | Some (v, r) => match skip_ws r with EmptyString => Some v | _ => None end
  | None => None
  end.

(** JSON texts are written with ['] for the double quote. *)
Fixpoint json_text (s : string) : string :=
  match s with
  | String c rest =>
      String (if Ascii.eqb c "'"%char then "034"%char else c) (json_text rest)
  | EmptyString => EmptyString
  end.

(** An object of the store. *)
Record S3Object : Type := {
  content : string;
  metadata : list (string * string)
}.

Record Store : Type := {
  buckets : list string;
  objects : gmap (string * string) S3Object
}.

Definition has_bucket (b : string) (st : Store) : bool :=
  existsb (String.eqb b) (buckets st).

Definition store_copy (req : CopyRequest) (st : Store) : copy_result * Store :=
  match CopySource req, Key req with
  | (VStr b, VStr k), VStr k' =>
      if negb (has_bucket b st) || negb (has_bucket (Bucket req) st)
      then (CopyClientError "NoSuchBucket", st)
      else match objects st !! (b, k) with
           | None => (CopyClientError "NoSuchKey", st)
           | Some o =>
               if String.eqb (MetadataDirective req) "COPY"
               then (CopyDone,
                     {| buckets := buckets st;
                        objects := <[(Bucket req, k') := o]> (objects st) |})
               else (CopyFailed "NotImplemented", st)
           end
  | _, _ => (CopyFailed "ParamValidationError", st)
  end.

#[export] Instance sample_decoder : JsonDecoder := decode.
#[export] Instance sample_client : S3Client Store := store_copy.

(** A store with a source and a destination bucket, and the world and
    the frame of an invocation over it, with and without the
    configuration. *)
Definition report : S3Object :=
  {| content := "quarterly figures"; metadata := [("owner", "dave")] |}.

Definition store0 : Store :=
  {| buckets := ["src"; "dest"];
     objects := {[ ("src", "folder/a.txt") := report;
                   ("src", "b.txt") := report;
                   ("src", "c.txt") := report ]} |}.

Definition world0 : World Store :=
  {| environ := {[ "DESTINATION_BUCKET" := "dest" ]};
     s3 := store0; log := []; copy_calls := [] |}.

Definition world_unset : World Store :=
  {| environ := ∅; s3 := store0; log := []; copy_calls := [] |}.

Definition frame_of (w : World Store) : Frame Store :=
  {| world := w; success_count := 0; error_count := 0 |}.

(** A record of the event, with the text of its body. *)
Definition envelope (text : string) : value :=
  VDict [("messageId", VStr "1"); ("body", VStr (json_text text))].

Definition event_of (records : list value) : value :=
  VDict [("Records", VList records)].

Definition direct_a : value :=
  envelope "{'bucket': {'name': 'src'}, 'object': {'key': 'folder/a.txt'}}".

Definition direct_not_found : value :=
  envelope "{'bucket': {'name': 'src'}, 'object': {'key': 'missing.txt'}}".

Definition direct_no_key : value :=
  envelope "{'bucket': {'name': 'src'}, 'object': {}}".

Definition direct_null_bucket : value :=
  envelope "{'bucket': null, 'object': {'key': 'folder/a.txt'}}".

Definition array_body : value := envelope "[1, 2]".

Definition malformed : value := envelope "{'bucket': ".

Definition wrapper_three : value :=
  envelope "{'Records': [
    {'eventSource': 'aws:s3', 's3': {'bucket': {'name': 'src'}, 'object': {'key': 'folder/a.txt'}}},
    {'eventSource': 'aws:s3', 's3': {'bucket': {'name': 'src'}, 'object': {'key': 'b.txt'}}},
    {'eventSource': 'aws:s3', 's3': {'bucket': {'name': 'src'}, 'object': {'key': 'c.txt'}}}]}".

Definition wrapper_first_fails : value :=
  envelope "{'Records': [
    {'eventSource': 'aws:s3', 's3': {'bucket': {'name': 'nope'}, 'object': {'key': 'a.txt'}}},
    {'eventSource': 'aws:s3', 's3': {'bucket': {'name': 'src'}, 'object': {'key': 'b.txt'}}}]}".

Definition wrapper_with_sns : value :=
  envelope "{'Records': [
    {'eventSource': 'aws:s3', 's3': {'bucket': {'name': 'src'}, 'object': {'key': 'b.txt'}}},
    {'eventSource': 'aws:sns', 'Sns': {'Message': 'hello'}},
    {'eventSource': 'aws:s3', 's3': {'bucket': {'name': 'src'}, 'object': {'key': 'c.txt'}}}]}".

Definition mixed_batch : list value :=
  [wrapper_three; direct_not_found; wrapper_first_fails; direct_no_key;
   malformed; array_body].

(** A body that names its bucket and its object by strings. *)
Definition flat_reference : value :=
  VDict [("bucket", VStr "my-bucket"); ("object", VStr "a.txt")].

Definition wrapper_of_number : value :=
  VDict [("Records", VList [VInt 5])].

(** A service that accepts every copy and keeps their number. *)
Definition counting_client : S3Client nat :=
  fun _ copies => (CopyDone, S copies).

Definition counting_world : World nat :=
  {| environ := {[ "DESTINATION_BUCKET" := "dest" ]};
     s3 := 0; log := []; copy_calls := [] |}.

Definition counting_frame : Frame nat :=
  {| world := counting_world; success_count := 0; error_count := 0 |}.

Definition no_body : value := VDict [("messageId", VStr "1")].

Definition wrapper_empty_with_reference : value :=
  envelope "{'Records': [], 'bucket': {'name': 'src'}, 'object': {'key': 'folder/a.txt'}}".

Definition wrapper_without_key : value :=
  envelope "{'Records': [
    {'eventSource': 'aws:s3', 's3': {'bucket': {'name': 'src'}, 'object': {}}},
    {'eventSource': 'aws:s3', 's3': {'bucket': {'name': 'src'}, 'object': {'key': 'b.txt'}}}]}".

Definition storage_record_of (bucket_name object_key : string) : value :=
  VDict [("eventSource", VStr "aws:s3");
         ("s3", VDict [("bucket", VDict [("name", VStr bucket_name)]);
                       ("object", VDict [("key", VStr object_key)])])].

Definition direct_body_a : value :=
  VDict [("bucket", VDict [("name", VStr "src")]);
         ("object", VDict [("key", VStr "folder/a.txt")])].

End Sample.

(** ** Properties *)

Section Properties.

Context {decoder : JsonDecoder} {S3 : Type} {client : S3Client S3}.

Implicit Types (w : World S3) (fr : Frame S3) (record event : value).

(** *** The per-envelope catch *)

Lemma handle_record_cases record fr :
  (exists fr', process_message record fr = (Returned tt, fr') /\
               handle_record record fr = (Returned tt, fr')) \/
  (exists e fr', process_message record fr = (Raised e, fr') /\
                 handle_record record fr = (Returned tt, caught e fr')).
Proof.
  unfold handle_record, try_except.
  destruct (process_message record fr) as [[[]|e] fr'].
  - left. eauto.
  - right. exists e, fr'. split; reflexivity.
Qed.

Lemma handle_record_returns record fr :
  fst (handle_record record fr) = Returned tt.
Proof.
  destruct (handle_record_cases record fr) as [(fr' & _ & ->)|(e & fr' & _ & ->)];
    reflexivity.
Qed.

Lemma for_each_handle_record_returns (records : list value) fr :
  fst (for_each records handle_record fr) = Returned tt.
Proof.
  revert fr. induction records as [|record rest IH]; intros fr; simpl.
  - reflexivity.
  - unfold bind. pose proof (handle_record_returns record fr) as Hr.
    destruct (handle_record record fr) as [r fr']. simpl in Hr. subst r.
    apply IH.
Qed.

Lemma in_world_frame {A} (m : M (World S3) A) fr :
  in_world m fr = (fst (m (world fr)), set_world (snd (m (world fr))) fr).
Proof. unfold in_world. destruct (m (world fr)); reflexivity. Qed.

(** *** Loops *)

Lemma for_each_app {St A} (l1 l2 : list A) (f : A -> M St unit) (st : St) :
  for_each (l1 ++ l2) f st = (for_each l1 f ;; for_each l2 f) st.
Proof.
  revert st. induction l1 as [|x l1 IH]; intros st; simpl.
  - reflexivity.
  - unfold bind. destruct (f x st) as [[[]|e] st']; [|reflexivity].
    rewrite IH. reflexivity.
Qed.

Lemma for_each_skip {St A} (l1 l2 : list A) (x : A) (f : A -> M St unit) (st : St) :
  (forall st', f x st' = (Returned tt, st')) ->
  for_each (l1 ++ x :: l2) f st = for_each (l1 ++ l2) f st.
Proof.
  intros Hx. rewrite !for_each_app. unfold bind.
  destruct (for_each l1 f st) as [[[]|e] st']; [|reflexivity].
  simpl. unfold bind. rewrite Hx. reflexivity.
Qed.

(** A wrapper's [try] block is the inner loop over its records. *)
Lemma process_message_wrapped record entries (s3_records : list value) fr :
  message_body_of record = Returned (VDict entries) ->
  dict_lookup "Records" entries = Some (VList s3_records) ->
  process_message record fr = for_each s3_records process_s3_record fr.
Proof.
  intros Hbody Hrec. unfold process_message, bind, eval.
  rewrite Hbody. simpl. rewrite Hrec. reflexivity.
Qed.

(** A storage record with a reference is one call of [copy_s3_object]. *)
Lemma process_s3_record_storage (s3_record bucket_name object_key : value) fr :
  is_storage_record s3_record = true ->
  storage_reference s3_record = Returned (bucket_name, object_key) ->
  process_s3_record s3_record fr
  = (in_world (copy_s3_object bucket_name object_key) ;; incr_success) fr.
Proof.
  unfold is_storage_record, storage_reference, process_s3_record.
  intros Htag Href. unfold bind at 1. unfold eval at 1.
  destruct (get s3_record "eventSource" VNone) as [tag|e]; [|discriminate].
  rewrite Htag. unfold bind at 1, eval at 1.
  destruct (obind (obind (getitem s3_record "s3") _) _) as [b|e]; [|discriminate].
  simpl in Href. unfold bind at 1, eval at 1.
  destruct (obind (obind (getitem s3_record "s3") _) _) as [k|e]; [|discriminate].
  simpl in Href. congruence.
Qed.

Lemma process_message_copies_once record (bucket_name object_key : value) fr :
  copies_once record bucket_name object_key ->
  process_message record fr
  = (in_world (copy_s3_object bucket_name object_key) ;; incr_success) fr.
Proof.
  intros (entries & Hbody & [(Hrec & Href & Htrue)|(r & Hrec & Htag & Href)]).
  - unfold process_message, direct_reference in *.
    unfold bind at 1, eval at 1. rewrite Hbody.
    unfold bind at 1, eval at 1. simpl contains. rewrite Hrec.
    unfold bind at 1, eval at 1.
    destruct (obind (get (VDict entries) "bucket" _) _) as [b|e]; [|discriminate].
    cbn [obind] in Href. unfold bind at 1, eval at 1.
    destruct (obind (get (VDict entries) "object" _) _) as [k|e]; [|discriminate].
    cbn [obind] in Href. injection Href as -> ->. rewrite Htrue. reflexivity.
  - rewrite (process_message_wrapped _ _ _ _ Hbody Hrec). simpl.
    rewrite <- (process_s3_record_storage _ _ _ _ Htag Href).
    unfold bind. destruct (process_s3_record r fr) as [[[]|e] fr']; reflexivity.
Qed.

(** *** [copy_s3_object] *)

Lemma copy_s3_object_unset (source_bucket source_key : value) w :
  environ w !! "DESTINATION_BUCKET" = None ->
  copy_s3_object source_bucket source_key w
  = (Raised (KeyError "DESTINATION_BUCKET"), w).
Proof.
  intros Hdest. unfold copy_s3_object, bind, os_environ. rewrite Hdest.
  reflexivity.
Qed.

Lemma copy_s3_object_result (source_bucket source_key : value) w dest :
  environ w !! "DESTINATION_BUCKET" = Some dest ->
  copy_s3_object source_bucket source_key w
  = let req := copy_request source_bucket source_key dest in
    let (r, s') := s3_copy_object req (s3 w) in
    let w1 := add_call req s' (add_log INFO (MsgCopying source_bucket source_key dest) w) in
    match r with
    | CopyDone => (Returned tt, add_log INFO (MsgCopied source_key) w1)
    | CopyClientError code =>
        if String.eqb code "NoSuchKey"
        then (Returned tt, add_log WARNING (MsgNotFound source_key) w1)
        else (Raised (ClientError code),
              add_log ERROR (MsgErrorCopying source_key (ClientError code)) w1)
    | CopyFailed name =>
        (Raised (OtherError name),
         add_log ERROR (MsgUnexpectedErrorCopying source_key (OtherError name)) w1)
    end.
Proof.
  intros Hdest. unfold copy_s3_object, bind at 1, os_environ. rewrite Hdest.
  unfold try_except, bind, logger, modify, s3_client_copy_object, copy_request.
  simpl.
  destruct (s3_copy_object _ (s3 w)) as [[| code | name] s']; simpl;
    try reflexivity.
  destruct (String.eqb code "NoSuchKey"); reflexivity.
Qed.

(** C2: with the destination configured, a [ClientError] of code
    [NoSuchKey] from [copy_object] ends [copy_s3_object] normally after a
    warning, and the envelope then counts as a success; every other
    [ClientError] and every other exception is logged as an error and
    raised again, and the per-envelope catch counts the envelope as an
    error. *)
Theorem C2_not_found_is_swallowed_other_errors_counted
    record (bucket_name object_key : value) fr dest :
  copies_once record bucket_name object_key ->
  environ (world fr) !! "DESTINATION_BUCKET" = Some dest ->
  let w := world fr in
  let req := copy_request bucket_name object_key dest in
  let w1 := add_call req (snd (s3_copy_object req (s3 w)))
              (add_log INFO (MsgCopying bucket_name object_key dest) w) in
  match fst (s3_copy_object req (s3 w)) with
  | CopyDone =>
      let w2 := add_log INFO (MsgCopied object_key) w1 in
      copy_s3_object bucket_name object_key w = (Returned tt, w2) /\
      handle_record record fr = (Returned tt, add_success (set_world w2 fr))
  | CopyClientError code =>
      if String.eqb code "NoSuchKey" then
        let w2 := add_log WARNING (MsgNotFound object_key) w1 in
        copy_s3_object bucket_name object_key w = (Returned tt, w2) /\
        handle_record record fr = (Returned tt, add_success (set_world w2 fr))
      else
        let e := ClientError code in
        let w2 := add_log ERROR (MsgErrorCopying object_key e) w1 in
        copy_s3_object bucket_name object_key w = (Raised e, w2) /\
        handle_record record fr = (Returned tt, caught e (set_world w2 fr))
  | CopyFailed name =>
      let e := OtherError name in
      let w2 := add_log ERROR (MsgUnexpectedErrorCopying object_key e) w1 in
      copy_s3_object bucket_name object_key w = (Raised e, w2) /\
      handle_record record fr = (Returned tt, caught e (set_world w2 fr))
  end.
Proof.
  intros Hrec Hdest w req w1.
  pose proof (copy_s3_object_result bucket_name object_key w dest Hdest) as Hc.
  cbv zeta in Hc. fold req in Hc. subst w1.
  assert (forall r w2,
            copy_s3_object bucket_name object_key w = (r, w2) ->
            handle_record record fr
            = match r with
              | Returned _ => (Returned tt, add_success (set_world w2 fr))
              | Raised e => (Returned tt, caught e (set_world w2 fr))
              end) as Hh.
  { intros r w2 Hcopy. unfold handle_record, try_except.
    rewrite (process_message_copies_once _ _ _ _ Hrec).
    unfold bind. rewrite in_world_frame. fold w. rewrite Hcopy.
    destruct r; reflexivity. }
  revert Hc.
  destruct (s3_copy_object req (s3 w)) as [[| code | name] s']; simpl; intros Hc.
  - split; [exact Hc|apply (Hh _ _ Hc)].
  - destruct (String.eqb code "NoSuchKey"); simpl;
      (split; [exact Hc|apply (Hh _ _ Hc)]).
  - split; [exact Hc|apply (Hh _ _ Hc)].
Qed.

(** *** Direct references with a part missing *)

Lemma direct_reference_field entries :
  object_if_present (dict_lookup "bucket" entries) = true ->
  object_if_present (dict_lookup "object" entries) = true ->
  exists bucket_name object_key,
    direct_reference (VDict entries) = Returned (bucket_name, object_key) /\
    truthy bucket_name
    = negb (missing_or_empty (field ["bucket"; "name"] (VDict entries))) /\
    truthy object_key
    = negb (missing_or_empty (field ["object"; "key"] (VDict entries))).
Proof.
  unfold direct_reference. simpl.
  destruct (dict_lookup "bucket" entries) as [[]|];
    destruct (dict_lookup "object" entries) as [[]|];
    try discriminate; intros _ _; simpl;
    repeat match goal with
      | |- context [dict_lookup ?k ?d] => destruct (dict_lookup k d)
      end; simpl; eexists _, _; rewrite ?negb_involutive; eauto.
Qed.

Lemma direct_reference_missing entries bucket_name object_key :
  direct_reference (VDict entries) = Returned (bucket_name, object_key) ->
  missing_or_empty (field ["bucket"; "name"] (VDict entries))
  || missing_or_empty (field ["object"; "key"] (VDict entries)) = true ->
  truthy bucket_name && truthy object_key = false.
Proof.
  unfold direct_reference. simpl.
  destruct (dict_lookup "bucket" entries) as [[]|];
    destruct (dict_lookup "object" entries) as [[]|]; simpl;
    try discriminate;
    repeat match goal with
      | |- context [dict_lookup ?k ?d] => destruct (dict_lookup k d)
      end; simpl; intros [= <- <-]; simpl;
    rewrite ?orb_true_r, ?andb_false_r; try reflexivity;
    intros H; apply orb_true_iff in H as [H|H];
    apply negb_true_iff in H; rewrite H, ?andb_false_r; reflexivity.
Qed.

(** C6, as the code has it: a direct-form envelope in which the bucket
    name or the object key is missing or empty is counted as exactly one
    error, without a success and without a call of [copy_object]; when
    ['bucket'] and ['object'] are JSON objects or absent, the [try] block
    ends normally after one warning. *)
Theorem C6_incomplete_direct_reference_counts_one_error record entries fr :
  message_body_of record = Returned (VDict entries) ->
  dict_lookup "Records" entries = None ->
  missing_or_empty (field ["bucket"; "name"] (VDict entries))
  || missing_or_empty (field ["object"; "key"] (VDict entries)) = true ->
  (exists fr',
     handle_record record fr = (Returned tt, fr') /\
     error_count fr' = error_count fr + 1 /\
     success_count fr' = success_count fr /\
     copy_calls (world fr') = copy_calls (world fr) /\
     s3 (world fr') = s3 (world fr)) /\
  (object_if_present (dict_lookup "bucket" entries) = true ->
   object_if_present (dict_lookup "object" entries) = true ->
   let fr' := add_error (set_world
                (add_log WARNING (MsgUnexpectedFormat (VDict entries)) (world fr))
                fr) in
   process_message record fr = (Returned tt, fr') /\
   handle_record record fr = (Returned tt, fr')).
Proof.
  intros Hbody Hrec Hmiss.
  assert (process_message record fr
          = match direct_reference (VDict entries) with
            | Returned (b, k) =>
                if truthy b && truthy k
                then (in_world (copy_s3_object b k) ;; incr_success) fr
                else (Returned tt,
                      add_error (set_world
                        (add_log WARNING (MsgUnexpectedFormat (VDict entries))
                           (world fr)) fr))
            | Raised e => (Raised e, fr)
            end) as Hm.
  { unfold process_message, direct_reference.
    unfold bind at 1, eval at 1. rewrite Hbody.
    unfold bind at 1, eval at 1. simpl contains. rewrite Hrec.
    unfold bind at 1, eval at 1.
    destruct (obind (get (VDict entries) "bucket" _) _) as [b|e]; [|reflexivity].
    cbn [obind]. unfold bind at 1, eval at 1.
    destruct (obind (get (VDict entries) "object" _) _) as [k|e]; [|reflexivity].
    cbn [obind]. destruct (truthy b && truthy k); reflexivity. }
  split.
  - unfold handle_record, try_except. rewrite Hm.
    destruct (direct_reference (VDict entries)) as [[b k]|e] eqn:Href.
    + rewrite (direct_reference_missing _ _ _ Href Hmiss).
      eexists. split; [reflexivity|]. simpl. auto.
    + eexists. split; [reflexivity|]. simpl. auto.
  - intros Hb Ho.
    destruct (direct_reference_field entries Hb Ho) as (b & k & Href & _).
    rewrite Href in Hm.
    rewrite (direct_reference_missing _ _ _ Href Hmiss) in Hm.
    split; [exact Hm|]. unfold handle_record, try_except. rewrite Hm.
    reflexivity.
Qed.

(** *** Inner records that are not storage events *)

(** C7: in a wrapper, an inner record (a JSON object) whose [eventSource]
    is not ["aws:s3"] changes nothing: no counter, no log line, no call of
    [copy_object]; the envelope is handled as if the record were not in
    it. *)
Theorem C7_other_event_source_is_skipped record entries
    (before after : list value) (s3_record : value) fr :
  message_body_of record = Returned (VDict entries) ->
  dict_lookup "Records" entries = Some (VList (before ++ s3_record :: after)) ->
  is_object s3_record = true ->
  is_storage_record s3_record = false ->
  (forall fr', process_s3_record s3_record fr' = (Returned tt, fr')) /\
  handle_record record fr
  = try_except (for_each (before ++ after) process_s3_record) on_exception fr.
Proof.
  intros Hbody Hrec Hobj Htag.
  assert (forall fr', process_s3_record s3_record fr' = (Returned tt, fr')) as Hskip.
  { intros fr'. destruct s3_record; try discriminate.
    unfold is_storage_record in Htag. unfold process_s3_record, bind, eval.
    simpl in *. destruct (dict_lookup "eventSource" entries0);
      rewrite Htag; reflexivity. }
  split; [exact Hskip|].
  unfold handle_record, try_except.
  rewrite (process_message_wrapped _ _ _ _ Hbody Hrec).
  rewrite (for_each_skip _ _ _ _ _ Hskip). reflexivity.
Qed.

(** *** Envelopes that are not JSON objects *)

(** C10: an envelope whose body decodes to something that is not a JSON
    object is counted as exactly one error: the per-envelope catch logs the
    exception and adds one to [error_count]; no success is counted, no
    call of [copy_object] is made, and the loop goes on with the rest of
    the batch. *)
Theorem C10_non_object_body_counts_one_error record v rest fr :
  message_body_of record = Returned v ->
  is_object v = false ->
  exists e fr',
    fr' = caught e fr /\
    handle_record record fr = (Returned tt, fr') /\
    error_count fr' = error_count fr + 1 /\
    success_count fr' = success_count fr /\
    copy_calls (world fr') = copy_calls (world fr) /\
    s3 (world fr') = s3 (world fr) /\
    for_each (record :: rest) handle_record fr
    = for_each rest handle_record fr'.
Proof.
  intros Hbody Hv.
  assert (exists e, process_message record fr = (Raised e, fr)) as [e He].
  { unfold process_message, bind, eval. rewrite Hbody.
    destruct v as [| b | z | f | s | items | entries]; simpl in *;
      try discriminate; eauto.
    - destruct (is_substring "Records" s); simpl; eauto.
    - destruct (existsb _ items); simpl; eauto. }
  assert (handle_record record fr = (Returned tt, caught e fr)) as Hh.
  { unfold handle_record, try_except. rewrite He. reflexivity. }
  exists e, (caught e fr). repeat split; try reflexivity; [exact Hh|].
  simpl. unfold bind at 1. rewrite Hh. reflexivity.
Qed.

(** *** What a statement keeps *)

Section Preserves.

Context {St : Type} (R : St -> St -> Prop) `{!PreOrder R}.

Lemma preserves_ret {A} (a : A) : preserves R (ret a).
Proof. intros st. simpl. reflexivity. Qed.

Lemma preserves_raise {A} (e : exn) : preserves R (raise (A:=A) e).
Proof. intros st. simpl. reflexivity. Qed.

Lemma preserves_eval {A} (o : outcome A) : preserves R (eval o).
Proof. intros st. simpl. reflexivity. Qed.

Lemma preserves_modify (f : St -> St) :
  (forall st, R st (f st)) -> preserves R (modify f).
Proof. intros Hf st. simpl. apply Hf. Qed.

Lemma preserves_bind {A B} (m : M St A) (k : A -> M St B) :
  preserves R m -> (forall a, preserves R (k a)) -> preserves R (bind m k).
Proof.
  intros Hm Hk st. unfold bind. specialize (Hm st).
  destruct (m st) as [[a|e] st1]; simpl in *.
  - etransitivity; [exact Hm|]. apply Hk.
  - exact Hm.
Qed.

Lemma preserves_try_except {A} (m : M St A) (h : exn -> M St A) :
  preserves R m -> (forall e, preserves R (h e)) -> preserves R (try_except m h).
Proof.
  intros Hm Hh st. unfold try_except. specialize (Hm st).
  destruct (m st) as [[a|e] st1]; simpl in *.
  - exact Hm.
  - etransitivity; [exact Hm|]. apply Hh.
Qed.

Lemma preserves_for_each {A} (items : list A) (f : A -> M St unit) :
  (forall x, preserves R (f x)) -> preserves R (for_each items f).
Proof.
  intros Hf. induction items as [|x rest IH]; simpl.
  - apply preserves_ret.
  - apply preserves_bind; auto.
Qed.

End Preserves.

(** Splits a statement along its binds, loops, branches and handlers. *)
Ltac keeps :=
  repeat first
    [ apply preserves_ret; tc_solve
    | apply preserves_eval; tc_solve
    | apply preserves_raise; tc_solve
    | apply preserves_for_each; [tc_solve|intros ?]
    | apply preserves_try_except; [tc_solve| |intros ?]
    | apply preserves_bind; [tc_solve| |intros ?]
    | match goal with
      | |- preserves _ (if ?b then _ else _) => destruct b
      end ].

(** What the four statements of the handler that change the frame keep,
    every envelope keeps. *)
Lemma handle_record_preserves (R : Frame S3 -> Frame S3 -> Prop) `{!PreOrder R} :
  (forall b k, preserves R (in_world (copy_s3_object b k))) ->
  (forall lv msg, preserves R (in_world (logger lv msg))) ->
  preserves R incr_success ->
  preserves R incr_error ->
  forall record, preserves R (handle_record record).
Proof.
  intros Hcopy Hlog Hs He record.
  unfold handle_record, process_message, on_exception, process_s3_record.
  keeps; auto.
Qed.

#[local] Instance extends_preorder : PreOrder (@extends S3).
Proof.
  split.
  - intros w. split; [reflexivity|]. exists []. rewrite app_nil_r. auto.
  - intros w1 w2 w3 (He1 & c1 & Hc1 & Hf1) (He2 & c2 & Hc2 & Hf2).
    split; [congruence|]. exists (c1 ++ c2).
    rewrite Hc2, Hc1, <- app_assoc. split; [reflexivity|].
    apply Forall_app. split; [exact Hf1|]. rewrite <- He1. exact Hf2.
Qed.

#[local] Instance frame_extends_preorder : PreOrder (@frame_extends S3).
Proof.
  split.
  - intros fr. unfold frame_extends. reflexivity.
  - intros a b c. unfold frame_extends. intros. etransitivity; eauto.
Qed.

#[local] Instance counters_grow_preorder : PreOrder (@counters_grow S3).
Proof. split; unfold counters_grow; [intros fr|intros a b c]; lia. Qed.

Lemma extends_add_log lv msg w : extends w (add_log lv msg w).
Proof. split; [reflexivity|]. exists []. simpl. rewrite app_nil_r. auto. Qed.

Lemma copy_s3_object_extends (source_bucket source_key : value) :
  preserves extends (copy_s3_object source_bucket source_key).
Proof.
  intros w. unfold copy_s3_object, bind, os_environ.
  destruct (environ w !! "DESTINATION_BUCKET") as [dest|] eqn:Hdest;
    [|simpl; reflexivity].
  set (req := {| CopySource := (source_bucket, source_key); Bucket := dest;
                 Key := source_key; MetadataDirective := "COPY" |}).
  assert (forall s' (w1 : World S3),
            environ w1 = environ w -> copy_calls w1 = copy_calls w ->
            extends w (add_call req s' w1)) as Hcall.
  { intros s' w1 He Hc. split; [exact He|]. exists [req]. simpl.
    rewrite Hc. split; [reflexivity|]. constructor; [|constructor].
    repeat split; assumption. }
  unfold try_except, bind, logger, modify, s3_client_copy_object. simpl.
  destruct (s3_copy_object req (s3 w)) as [[| code | name] s']; simpl.
  - etransitivity; [|apply extends_add_log]. apply Hcall; reflexivity.
  - destruct (String.eqb code "NoSuchKey"); simpl;
      (etransitivity; [|apply extends_add_log]); apply Hcall; reflexivity.
  - etransitivity; [|apply extends_add_log]. apply Hcall; reflexivity.
Qed.

Lemma in_world_extends {A} (m : M (World S3) A) :
  preserves extends m -> preserves frame_extends (in_world m).
Proof. intros Hm fr. rewrite in_world_frame. simpl. apply Hm. Qed.

Lemma handle_record_extends record :
  preserves frame_extends (handle_record record).
Proof.
  apply handle_record_preserves; [tc_solve|..].
  - intros b k. apply in_world_extends, copy_s3_object_extends.
  - intros lv msg. apply in_world_extends. intros w. apply extends_add_log.
  - intros fr. unfold frame_extends. reflexivity.
  - intros fr. unfold frame_extends. reflexivity.
Qed.

Lemma handle_record_counters_grow record :
  preserves counters_grow (handle_record record).
Proof.
  apply handle_record_preserves; [tc_solve|..].
  - intros b k fr. rewrite in_world_frame. unfold counters_grow. simpl. lia.
  - intros lv msg fr. rewrite in_world_frame. unfold counters_grow. simpl. lia.
  - intros fr. unfold counters_grow. simpl. lia.
  - intros fr. unfold counters_grow. simpl. lia.
Qed.

(** The outer loop never takes an error back. *)
Lemma errors_never_decrease (records : list value) fr :
  error_count fr <= error_count (snd (for_each records handle_record fr)).
Proof.
  apply (preserves_for_each counters_grow records handle_record
           handle_record_counters_grow fr).
Qed.

(** *** The calls of [copy_object] *)

(** C5: every call of [copy_object] the handler makes writes to the
    bucket [DESTINATION_BUCKET] names, under the key of the source object,
    with [MetadataDirective] ["COPY"]. *)
Theorem C5_copies_keep_key_and_metadata event w :
  exists calls,
    copy_calls (snd (lambda_handler event w)) = copy_calls w ++ calls /\
    Forall (fun req =>
              environ w !! "DESTINATION_BUCKET" = Some (Bucket req) /\
              Key req = snd (CopySource req) /\
              MetadataDirective req = "COPY") calls.
Proof.
  assert (extends w (snd (lambda_handler event w))) as (_ & calls & Hc & Hf);
    [|exists calls; split; assumption].
  unfold lambda_handler, bind, eval.
  destruct (obind (get event "Records" (VList [])) len) as [n|e];
    [|simpl; reflexivity].
  simpl.
  destruct (obind (get event "Records" (VList [])) iter) as [records|e];
    [|simpl; apply extends_add_log].
  pose proof (preserves_for_each frame_extends records handle_record
                handle_record_extends
                {| world := add_log INFO (MsgProcessing n) w;
                   success_count := 0; error_count := 0 |}) as Hloop.
  destruct (for_each records handle_record _) as [[[]|e] fr];
    unfold frame_extends in Hloop; simpl in *.
  - etransitivity; [apply extends_add_log|].
    etransitivity; [exact Hloop|]. apply extends_add_log.
  - etransitivity; [apply extends_add_log|]. exact Hloop.
Qed.

(** *** The counters *)

(** One inner record: at most one success, and none when it raises. *)
Lemma process_s3_record_counts (s3_record : value) fr :
  let (r, fr') := process_s3_record s3_record fr in
  error_count fr' = error_count fr /\
  match r with
  | Returned _ => success_count fr' <= success_count fr + 1
  | Raised _ => success_count fr' = success_count fr
  end.
Proof.
  unfold process_s3_record, bind, eval.
  destruct (get s3_record "eventSource" VNone) as [tag|e]; [|simpl; lia].
  destruct (eq_str tag "aws:s3"); [|simpl; lia].
  destruct (obind (obind (getitem s3_record "s3") _) _) as [b|e]; [|simpl; lia].
  destruct (obind (obind (getitem s3_record "s3") _) _) as [k|e]; [|simpl; lia].
  rewrite in_world_frame.
  destruct (copy_s3_object b k (world fr)) as [[[]|e] w']; simpl; lia.
Qed.

(** The inner loop: every success, and the raise that ends it, is owed
    to a record of its own. *)
Lemma inner_loop_counts (s3_records : list value) fr :
  let (r, fr') := for_each s3_records process_s3_record fr in
  error_count fr' = error_count fr /\
  match r with
  | Returned _ => success_count fr' <= success_count fr + length s3_records
  | Raised _ => success_count fr' + 1 <= success_count fr + length s3_records
  end.
Proof.
  revert fr. induction s3_records as [|x rest IH]; intros fr; simpl.
  - lia.
  - unfold bind. pose proof (process_s3_record_counts x fr) as Hx.
    destruct (process_s3_record x fr) as [[[]|e] fr1].
    + specialize (IH fr1).
      destruct (for_each rest process_s3_record fr1) as [[[]|e] fr2]; lia.
    + lia.
Qed.

(** A loop over things that are not JSON objects stops at the first. *)
Lemma inner_loop_no_objects (items : list value) fr :
  Forall (fun x => is_object x = false) items ->
  for_each items process_s3_record fr
  = match items with
    | [] => (Returned tt, fr)
    | _ => (Raised AttributeError, fr)
    end.
Proof.
  intros Hall. destruct Hall as [|x rest Hx _]; [reflexivity|].
  simpl. unfold bind, process_s3_record, bind, eval.
  destruct x; try discriminate; reflexivity.
Qed.

Lemma chars_no_objects (s : string) :
  Forall (fun x => is_object x = false) (chars s).
Proof. induction s; simpl; constructor; auto. Qed.

Lemma keys_no_objects (entries : list (string * value)) :
  Forall (fun x => is_object x = false) (map (fun kv => VStr (fst kv)) entries).
Proof. induction entries; simpl; constructor; auto. Qed.

(** The [try] block of one envelope, against its units. *)
Lemma process_message_counts record fr :
  let (r, fr') := process_message record fr in
  match r with
  | Returned _ =>
      success_count fr' + error_count fr'
      <= success_count fr + error_count fr + units_of record
  | Raised _ =>
      success_count fr' + error_count fr' + 1
      <= success_count fr + error_count fr + units_of record
  end.
Proof.
  unfold process_message, units_of, bind, eval.
  destruct (message_body_of record) as [v|e]; [|simpl; lia].
  destruct v as [| b | z | f | s | items | entries]; simpl; try lia.
  - destruct (is_substring "Records" s); simpl; lia.
  - destruct (existsb _ items); simpl; lia.
  - destruct (dict_lookup "Records" entries) as [x|]; simpl.
    + destruct x as [| b | z | f | s | items | keys]; simpl; try lia.
      * rewrite (inner_loop_no_objects _ _ (chars_no_objects s)).
        destruct (chars s); simpl; lia.
      * pose proof (inner_loop_counts items fr) as Hl.
        destruct (for_each items process_s3_record fr) as [[[]|e] fr']; lia.
      * rewrite (inner_loop_no_objects _ _ (keys_no_objects keys)).
        destruct (map _ keys); simpl; lia.
    + destruct (obind (match dict_lookup "bucket" entries with _ => _ end) _)
        as [bucket_name|e]; [|simpl; lia].
      destruct (obind (match dict_lookup "object" entries with _ => _ end) _)
        as [object_key|e]; [|simpl; lia].
      destruct (truthy bucket_name && truthy object_key).
      * rewrite in_world_frame.
        destruct (copy_s3_object bucket_name object_key (world fr))
          as [[[]|e] w']; simpl; lia.
      * simpl. lia.
Qed.

Lemma handle_record_counts record fr :
  let fr' := snd (handle_record record fr) in
  success_count fr' + error_count fr'
  <= success_count fr + error_count fr + units_of record.
Proof.
  pose proof (process_message_counts record fr) as Hp.
  destruct (handle_record_cases record fr)
    as [(fr' & Hm & ->)|(e & fr' & Hm & ->)]; rewrite Hm in Hp; simpl; lia.
Qed.

Lemma outer_loop_counts (records : list value) fr :
  let fr' := snd (for_each records handle_record fr) in
  success_count fr' + error_count fr'
  <= success_count fr + error_count fr + units_attempted records.
Proof.
  revert fr. induction records as [|record rest IH]; intros fr; simpl.
  - lia.
  - unfold bind. pose proof (handle_record_counts record fr) as Hr.
    pose proof (handle_record_returns record fr) as Hret.
    destruct (handle_record record fr) as [r fr1]. simpl in *. subst r.
    specialize (IH fr1). unfold units_attempted in *. simpl. lia.
Qed.

(** *** The inner records of a wrapper *)

Lemma for_each_raised {St A} (items : list A) (f : A -> M St unit) (st st' : St) e :
  for_each items f st = (Raised e, st') ->
  exists before x after st1,
    items = before ++ x :: after /\
    for_each before f st = (Returned tt, st1) /\
    f x st1 = (Raised e, st').
Proof.
  revert st. induction items as [|x rest IH]; intros st; simpl.
  - discriminate.
  - unfold bind. destruct (f x st) as [[[]|e1] st1] eqn:Hx.
    + intros Hrest. destruct (IH _ Hrest) as (before & y & after & st2 & -> & Hb & Hy).
      exists (x :: before), y, after, st2. split; [reflexivity|].
      split; [|exact Hy]. simpl. unfold bind. rewrite Hx. exact Hb.
    + intros [= <- <-]. exists [], x, rest, st. auto.
Qed.

(** An inner record that returns is a success exactly when it is a
    storage record. *)
Lemma process_s3_record_returned (s3_record : value) fr fr' :
  process_s3_record s3_record fr = (Returned tt, fr') ->
  success_count fr'
  = success_count fr + (if is_storage_record s3_record then 1 else 0) /\
  error_count fr' = error_count fr.
Proof.
  unfold process_s3_record, is_storage_record, bind, eval.
  destruct (get s3_record "eventSource" VNone) as [tag|e]; [|discriminate].
  destruct (eq_str tag "aws:s3").
  - destruct (obind (obind (getitem s3_record "s3") _) _) as [b|e]; [|discriminate].
    destruct (obind (obind (getitem s3_record "s3") _) _) as [k|e]; [|discriminate].
    rewrite in_world_frame.
    destruct (copy_s3_object b k (world fr)) as [[[]|e] w']; [|discriminate].
    intros [= <-]. simpl. lia.
  - intros [= <-]. lia.
Qed.

Lemma inner_loop_returned (s3_records : list value) fr fr' :
  for_each s3_records process_s3_record fr = (Returned tt, fr') ->
  success_count fr' = success_count fr + count_storage s3_records /\
  error_count fr' = error_count fr.
Proof.
  revert fr. induction s3_records as [|x rest IH]; intros fr; simpl.
  - intros [= <-]. unfold count_storage. simpl. lia.
  - unfold bind. destruct (process_s3_record x fr) as [[[]|e] fr1] eqn:Hx;
      [|discriminate].
    intros Hrest. apply process_s3_record_returned in Hx. apply IH in Hrest.
    unfold count_storage in *. simpl. lia.
Qed.

(** C3, as the code has it: the inner records of a wrapper are taken in
    order. While none raises, every storage record among them counts as
    one success. The first that raises ends the envelope: the storage
    records before it stay counted, the envelope counts one error, and
    the records after it are not processed. *)
Theorem C3_inner_records_until_first_failure
    record entries (s3_records : list value) fr :
  message_body_of record = Returned (VDict entries) ->
  dict_lookup "Records" entries = Some (VList s3_records) ->
  match for_each s3_records process_s3_record fr with
  | (Returned _, fr') =>
      handle_record record fr = (Returned tt, fr') /\
      success_count fr' = success_count fr + count_storage s3_records /\
      error_count fr' = error_count fr
  | (Raised e, fr') =>
      handle_record record fr = (Returned tt, caught e fr') /\
      exists before failing after fr1,
        s3_records = before ++ failing :: after /\
        for_each before process_s3_record fr = (Returned tt, fr1) /\
        process_s3_record failing fr1 = (Raised e, fr') /\
        success_count (caught e fr') = success_count fr + count_storage before /\
        error_count (caught e fr') = error_count fr + 1
  end.
Proof.
  intros Hbody Hrec.
  pose proof (process_message_wrapped _ _ _ fr Hbody Hrec) as Hm.
  unfold handle_record, try_except. rewrite Hm.
  destruct (for_each s3_records process_s3_record fr) as [[[]|e] fr'] eqn:Hloop.
  - split; [reflexivity|]. apply inner_loop_returned, Hloop.
  - split; [reflexivity|].
    destruct (for_each_raised _ _ _ _ _ Hloop)
      as (before & x & after & fr1 & -> & Hb & Hx).
    exists before, x, after, fr1. repeat split; try assumption.
    + pose proof (inner_loop_returned _ _ _ Hb) as [Hs _].
      pose proof (process_s3_record_counts x fr1) as Hc. rewrite Hx in Hc.
      simpl. lia.
    + pose proof (inner_loop_returned _ _ _ Hb) as [_ He].
      pose proof (process_s3_record_counts x fr1) as Hc. rewrite Hx in Hc.
      simpl. lia.
Qed.

(** *** The invocation *)

(** The frame the outer loop starts from. *)
Lemma lambda_handler_batch event (records : list value) w :
  batch_records event = Some records ->
  lambda_handler event w
  = let fr := snd (for_each records handle_record
                     {| world := add_log INFO (MsgProcessing (length records)) w;
                        success_count := 0; error_count := 0 |}) in
    (Returned {| statusCode := 200;
                 body := json_dumps_counts (success_count fr) (error_count fr) |},
     add_log INFO (MsgComplete (success_count fr) (error_count fr)) (world fr)).
Proof.
  intros Hb. unfold lambda_handler, bind, eval.
  assert (get event "Records" (VList []) = Returned (VList records)) as ->.
  { destruct event; try discriminate. simpl in *.
    destruct (dict_lookup "Records" entries) as [[]|]; congruence. }
  simpl.
  pose proof (for_each_handle_record_returns records
    {| world := add_log INFO (MsgProcessing (length records)) w;
       success_count := 0; error_count := 0 |}) as Hret.
  destruct (for_each records handle_record _) as [r fr]. simpl in *. subst r.
  reflexivity.
Qed.

(** C4, as the code has it: with [DESTINATION_BUCKET] unset,
    [copy_s3_object] raises [KeyError] before it logs or calls anything,
    and nothing in [copy_s3_object] catches it; the per-envelope catch of
    the handler does, and counts the envelope as one error; the invocation
    returns 200. *)
Theorem C4_unset_destination_is_counted_as_error
    record (bucket_name object_key : value) fr :
  copies_once record bucket_name object_key ->
  environ (world fr) !! "DESTINATION_BUCKET" = None ->
  copy_s3_object bucket_name object_key (world fr)
  = (Raised (KeyError "DESTINATION_BUCKET"), world fr) /\
  process_message record fr = (Raised (KeyError "DESTINATION_BUCKET"), fr) /\
  handle_record record fr
  = (Returned tt, caught (KeyError "DESTINATION_BUCKET") fr) /\
  forall (rest : list value),
  exists (success errors : nat) (w' : World S3),
    lambda_handler (VDict [("Records", VList (record :: rest))]) (world fr)
    = (Returned {| statusCode := 200; body := json_dumps_counts success errors |}, w') /\
    1 <= errors.
Proof.
  intros Hrec Hdest.
  pose proof (copy_s3_object_unset bucket_name object_key _ Hdest) as Hc.
  assert (forall fr0, world fr0 = world fr ->
            process_message record fr0
            = (Raised (KeyError "DESTINATION_BUCKET"), fr0)) as Hm.
  { intros fr0 Hw. rewrite (process_message_copies_once _ _ _ _ Hrec).
    unfold bind. rewrite in_world_frame, Hw, Hc. rewrite <- Hw.
    destruct fr0; reflexivity. }
  assert (forall fr0, world fr0 = world fr ->
            handle_record record fr0
            = (Returned tt, caught (KeyError "DESTINATION_BUCKET") fr0)) as Hh.
  { intros fr0 Hw. unfold handle_record, try_except. rewrite (Hm _ Hw).
    reflexivity. }
  repeat split; [exact Hc|apply Hm; reflexivity|apply Hh; reflexivity|].
  intros rest.
  rewrite (lambda_handler_batch (VDict [("Records", VList (record :: rest))])
             (record :: rest) (world fr) eq_refl).
  set (fr0 := {| world := add_log INFO (MsgProcessing (length (record :: rest)))
                            (world fr);
                 success_count := 0; error_count := 0 |}).
  assert (for_each (record :: rest) handle_record fr0
          = for_each rest handle_record
              (caught (KeyError "DESTINATION_BUCKET") fr0)) as Hloop.
  { cbn [for_each]. unfold bind, handle_record, try_except.
    rewrite (process_message_copies_once _ _ _ _ Hrec).
    unfold bind. rewrite in_world_frame.
    rewrite (copy_s3_object_unset bucket_name object_key (world fr0) Hdest).
    reflexivity. }
  pose proof (errors_never_decrease rest (caught (KeyError "DESTINATION_BUCKET") fr0))
    as Hmono.
  cbv zeta. rewrite Hloop. eexists _, _, _. split; [reflexivity|].
  simpl in Hmono. lia.
Qed.

(** *** The counters in the body *)

Lemma pretty_N_char_digit (x : N) : is_digit (pretty_N_char x) = true.
Proof.
  destruct x as [|p]; [reflexivity|].
  do 4 (try destruct p as [p|p|]); reflexivity.
Qed.

Lemma all_digits_app (a b : string) :
  all_digits (a +:+ b) = all_digits a && all_digits b.
Proof.
  induction a as [|c a IH]; [reflexivity|].
  change (is_digit c && all_digits (a +:+ b)
          = is_digit c && all_digits a && all_digits b).
  rewrite IH, andb_assoc. reflexivity.
Qed.

Lemma append_assoc (a b c : string) : (a +:+ b) +:+ c = a +:+ (b +:+ c).
Proof.
  induction a as [|x a IH]; [reflexivity|].
  change (String x ((a +:+ b) +:+ c) = String x (a +:+ (b +:+ c))).
  rewrite IH. reflexivity.
Qed.

Lemma pretty_N_go_digits (x : N) (s : string) :
  exists p, pretty_N_go x s = p +:+ s /\ all_digits p = true.
Proof.
  revert s. induction x as [x IH] using (well_founded_induction N.lt_wf_0).
  intros s. destruct (N.eq_dec x 0%N) as [->|Hx].
  - exists "". split; reflexivity.
  - rewrite pretty_N_go_step by lia.
    destruct (IH (x `div` 10)%N) with (s := String (pretty_N_char (x `mod` 10)) s)
      as (p & -> & Hp); [apply N.div_lt; lia|].
    exists (p +:+ String (pretty_N_char (x `mod` 10)) "").
    rewrite append_assoc. split; [reflexivity|].
    rewrite all_digits_app, Hp. simpl. rewrite pretty_N_char_digit. reflexivity.
Qed.

Lemma pretty_nat_digits (n : nat) : all_digits (pretty n) = true.
Proof.
  unfold pretty, pretty_nat, pretty, pretty_N.
  destruct (decide (N.of_nat n = 0%N)); [reflexivity|].
  destruct (pretty_N_go_digits (N.of_nat n) "") as (p & -> & Hp).
  rewrite all_digits_app, Hp. reflexivity.
Qed.

(** A run of digits ends where the first other character stands. *)
Lemma digits_prefix_inj (a a' b b' : string) :
  all_digits a = true -> all_digits a' = true ->
  starts_without_digit b = true -> starts_without_digit b' = true ->
  a +:+ b = a' +:+ b' -> a = a' /\ b = b'.
Proof.
  revert a'. induction a as [|c a IH]; intros [|c' a'] Ha Ha' Hb Hb' Heq.
  - auto.
  - change (b = String c' (a' +:+ b')) in Heq. subst b.
    simpl in *. apply andb_true_iff in Ha' as [Hc _].
    rewrite Hc in Hb. discriminate.
  - change (String c (a +:+ b) = b') in Heq. subst b'.
    simpl in *. apply andb_true_iff in Ha as [Hc _].
    rewrite Hc in Hb'. discriminate.
  - change (String c (a +:+ b) = String c' (a' +:+ b')) in Heq. simpl in *.
    injection Heq as -> Heq.
    apply andb_true_iff in Ha as [_ Ha]. apply andb_true_iff in Ha' as [_ Ha'].
    destruct (IH a' Ha Ha' Hb Hb' Heq) as [-> ->]. auto.
Qed.

(** The text of the body gives the two counters back. *)
Lemma json_dumps_counts_inj (s e s' e' : nat) :
  json_dumps_counts s e = json_dumps_counts s' e' -> s = s' /\ e = e'.
Proof.
  unfold json_dumps_counts. intros Heq.
  do 5 apply (inj (String.app _)) in Heq.
  apply digits_prefix_inj in Heq as [Hs Heq];
    [|apply pretty_nat_digits|apply pretty_nat_digits|reflexivity|reflexivity].
  do 5 apply (inj (String.app _)) in Heq.
  apply digits_prefix_inj in Heq as [He _];
    [|apply pretty_nat_digits|apply pretty_nat_digits|reflexivity|reflexivity].
  split; eapply (inj pretty); eassumption.
Qed.

(** What the [try] block of one envelope does to [error_count]: nothing
    when it raises, and one more exactly on the warning branch when it
    returns. *)
Lemma process_message_error_count record fr :
  let (r, fr') := process_message record fr in
  match r with
  | Raised _ => error_count fr' = error_count fr
  | Returned _ =>
      error_count fr'
      = error_count fr + (if takes_warning_branch record then 1 else 0)
  end.
Proof.
  unfold process_message, takes_warning_branch, direct_reference, bind, eval.
  destruct (message_body_of record) as [v|e]; [|reflexivity].
  destruct (contains "Records" v) as [[]|e]; [| |reflexivity].
  - destruct (obind (getitem v "Records") iter) as [l|e]; [|reflexivity].
    pose proof (inner_loop_counts l fr) as Hl.
    destruct (for_each l process_s3_record fr) as [[[]|e] fr']; lia.
  - destruct (obind (get v "bucket" _) _) as [b|e]; [|reflexivity].
    cbn [obind].
    destruct (obind (get v "object" _) _) as [k|e]; [|reflexivity].
    cbn [obind]. destruct (truthy b && truthy k).
    + rewrite in_world_frame.
      destruct (copy_s3_object b k (world fr)) as [[[]|e] w']; simpl; lia.
    + simpl. lia.
Qed.

(** An envelope that ends in an error adds one to [error_count], and no
    other envelope adds any. *)
Lemma handle_record_error_count record fr :
  error_count (snd (handle_record record fr))
  = error_count fr + (if ends_in_error record fr then 1 else 0).
Proof.
  pose proof (process_message_error_count record fr) as Hp.
  unfold ends_in_error.
  destruct (handle_record_cases record fr)
    as [(fr' & Hm & ->)|(e & fr' & Hm & ->)]; rewrite Hm in *; simpl.
  - exact Hp.
  - lia.
Qed.

Lemma outer_loop_error_count (records : list value) fr :
  error_count (snd (for_each records handle_record fr))
  = error_count fr + errors_along records fr.
Proof.
  revert fr. induction records as [|record rest IH]; intros fr.
  - simpl. lia.
  - cbn [for_each errors_along]. unfold bind.
    pose proof (handle_record_error_count record fr) as Hr.
    pose proof (handle_record_returns record fr) as Hret.
    destruct (handle_record record fr) as [r fr1]. simpl in *. subst r.
    rewrite IH. lia.
Qed.

(** C1: on every input batch the handler returns, with [statusCode] 200
    whatever the error count, and with a body that is the text
    [json.dumps] makes of the two counters the loop ended with, from which
    both can be read back. The errors are in that body: the [error_count]
    it carries is the number of envelopes that ended in an error, each one
    whose [try] block raised and each one that took the warning branch. *)
Theorem C1_handler_returns_200_with_counts event (records : list value) w :
  batch_records event = Some records ->
  exists (resp : Response) (w' : World S3) (fr : Frame S3),
    lambda_handler event w = (Returned resp, w') /\
    for_each records handle_record
      {| world := add_log INFO (MsgProcessing (length records)) w;
         success_count := 0; error_count := 0 |} = (Returned tt, fr) /\
    statusCode resp = 200%Z /\
    body resp = json_dumps_counts (success_count fr) (error_count fr) /\
    (forall success errors : nat,
       body resp = json_dumps_counts success errors ->
       success = success_count fr /\ errors = error_count fr) /\
    error_count fr
    = errors_along records
        {| world := add_log INFO (MsgProcessing (length records)) w;
           success_count := 0; error_count := 0 |}.
Proof.
  intros Hb. rewrite (lambda_handler_batch _ _ _ Hb).
  pose proof (for_each_handle_record_returns records
    {| world := add_log INFO (MsgProcessing (length records)) w;
       success_count := 0; error_count := 0 |}) as Hret.
  pose proof (outer_loop_error_count records
    {| world := add_log INFO (MsgProcessing (length records)) w;
       success_count := 0; error_count := 0 |}) as Herr.
  destruct (for_each records handle_record _) as [r fr]. simpl in *. subst r.
  eexists _, _, fr. do 4 (split; [reflexivity|]). split; [|exact Herr].
  intros success errors Heq. simpl in Heq. symmetry in Heq.
  apply json_dumps_counts_inj in Heq. exact Heq.
Qed.

(** C8: on every input batch the handler returns a result, and the two
    counters it reports add up to at most the units of the batch: the inner
    records of each notification wrapper, and one for every other
    envelope. *)
Theorem C8_counters_bounded_by_units event (records : list value) w :
  batch_records event = Some records ->
  exists (success errors : nat) (w' : World S3),
    lambda_handler event w
    = (Returned {| statusCode := 200; body := json_dumps_counts success errors |}, w') /\
    success + errors <= units_attempted records.
Proof.
  intros Hb. rewrite (lambda_handler_batch _ _ _ Hb).
  pose proof (outer_loop_counts records
    {| world := add_log INFO (MsgProcessing (length records)) w;
       success_count := 0; error_count := 0 |}) as Hc.
  simpl in Hc. eauto 10.
Qed.

(** *** [validate_s3_notification] *)

Lemma valid_s3_record_well_formed (s3_record : value) :
  well_formed_record s3_record = true ->
  valid_s3_record s3_record
  = Returned (is_storage_record s3_record && has_populated_reference s3_record).
Proof.
  destruct s3_record as [| | | | | |entries]; try discriminate. simpl.
  unfold valid_s3_record, is_storage_record, has_populated_reference, and_then.
  simpl. intros Hs3.
  destruct (dict_lookup "eventSource" entries) as [tag|]; simpl;
    [destruct (eq_str tag "aws:s3"); simpl|]; try reflexivity.
  destruct (dict_lookup "s3" entries) as [[]|]; try discriminate; simpl;
    try reflexivity.
  destruct (dict_lookup "bucket" entries0); simpl; [|reflexivity].
  destruct (dict_lookup "object" entries0); reflexivity.
Qed.

Lemma any_valid_s3_record_well_formed (s3_records : list value) :
  forallb well_formed_record s3_records = true ->
  any_valid_s3_record s3_records
  = Returned (existsb (fun r => is_storage_record r && has_populated_reference r)
                s3_records).
Proof.
  induction s3_records as [|r rest IH]; simpl; [reflexivity|].
  intros [Hr Hrest]%andb_true_iff.
  rewrite (valid_s3_record_well_formed _ Hr). simpl.
  destruct (is_storage_record r && has_populated_reference r); simpl; auto.
Qed.

(** On bodies of the right shape the validator returns what the
    specification says. *)
Lemma validate_s3_notification_well_formed (message_body : value) :
  well_formed_body message_body = true ->
  validate_s3_notification message_body
  = Returned (spec_is_valid_reference message_body).
Proof.
  destruct message_body as [| | | | | |entries]; try discriminate.
  unfold validate_s3_notification, spec_is_valid_reference, and_then. simpl.
  destruct (dict_lookup "Records" entries) as [[]|]; try discriminate; simpl.
  - apply any_valid_s3_record_well_formed.
  - intros [Hb Ho]%andb_true_iff.
    destruct (dict_lookup "bucket" entries) as [[]|]; try discriminate; simpl;
      [|reflexivity].
    destruct (dict_lookup "object" entries) as [[]|]; try discriminate; simpl.
    + destruct (dict_lookup "name" entries0) as [name|]; simpl;
        [destruct (truthy name); simpl|]; try reflexivity.
      destruct (dict_lookup "key" entries1); simpl;
        rewrite ?negb_involutive; reflexivity.
    + rewrite andb_false_r. reflexivity.
Qed.

(** *** Envelopes whose body cannot be read *)

Lemma message_body_of_raised record e :
  message_body_of record = Raised e -> unreadable record e.
Proof.
  unfold message_body_of, unreadable, loads.
  destruct record as [| | | | | |entries]; simpl; try congruence.
  destruct (dict_lookup "body" entries) as [[| | | |text| |]|]; simpl;
    try congruence.
  destruct (json_loads text); [discriminate|]. intros [= <-]. auto.
Qed.

(** X1: an envelope whose body cannot be read is counted as exactly one
    error and the loop goes on. The exception is [KeyError] when the record
    has no ['body'], [TypeError] when the record is not a dict or the body
    is not a string, and [JSONDecodeError] when the text does not parse;
    it is raised before anything else happens, so the frame the catch
    starts from is the one the envelope started from. *)
Theorem X1_unreadable_body_counts_one_error record e (rest : list value) fr :
  message_body_of record = Raised e ->
  unreadable record e /\
  process_message record fr = (Raised e, fr) /\
  handle_record record fr = (Returned tt, caught e fr) /\
  for_each (record :: rest) handle_record fr
  = for_each rest handle_record (caught e fr).
Proof.
  intros Hbody.
  assert (process_message record fr = (Raised e, fr)) as Hm.
  { unfold process_message, bind, eval. rewrite Hbody. reflexivity. }
  assert (handle_record record fr = (Returned tt, caught e fr)) as Hh.
  { unfold handle_record, try_except. rewrite Hm. reflexivity. }
  split; [apply message_body_of_raised, Hbody|].
  split; [exact Hm|]. split; [exact Hh|].
  cbn [for_each]. unfold bind at 1. rewrite Hh. reflexivity.
Qed.

(** *** The outer loop, part by part *)

(** X2: the outer loop never ends early: handling the envelopes
    [first ++ second] is handling [first], which returns, and then
    [second] from the frame [first] left. *)
Theorem X2_outer_loop_in_two_parts (first second : list value) fr :
  exists fr1,
    for_each first handle_record fr = (Returned tt, fr1) /\
    for_each (first ++ second) handle_record fr
    = for_each second handle_record fr1.
Proof.
  pose proof (for_each_handle_record_returns first fr) as Hret.
  rewrite for_each_app. unfold bind.
  destruct (for_each first handle_record fr) as [r fr1]. simpl in Hret. subst r.
  exists fr1. split; reflexivity.
Qed.

(** *** Events that are not batches *)

(** X3: the handler raises only from its first line, and then it has
    logged and copied nothing: [AttributeError] when the event is not a
    dict, [TypeError] when its ['Records'] is [None], a boolean or a
    number. For every other event, also one whose ['Records'] is a string
    or a dict, it returns 200. *)
Theorem X3_handler_raises_only_before_the_loop event w :
  match event with
  | VDict entries =>
      match dict_lookup "Records" entries with
      | Some v =>
          if has_len v
          then exists (success errors : nat) (w' : World S3),
                 lambda_handler event w
                 = (Returned {| statusCode := 200;
                                body := json_dumps_counts success errors |}, w')
          else lambda_handler event w = (Raised TypeError, w)
      | None =>
          exists (success errors : nat) (w' : World S3),
            lambda_handler event w
            = (Returned {| statusCode := 200;
                           body := json_dumps_counts success errors |}, w')
      end
  | _ => lambda_handler event w = (Raised AttributeError, w)
  end.
Proof.
  assert (forall n (records : list value),
            obind (get event "Records" (VList [])) len = Returned n ->
            obind (get event "Records" (VList [])) iter = Returned records ->
            exists (success errors : nat) (w' : World S3),
              lambda_handler event w
              = (Returned {| statusCode := 200;
                             body := json_dumps_counts success errors |}, w'))
    as Hok.
  { intros n records Hn Hr. unfold lambda_handler, bind, eval.
    rewrite Hn. simpl. rewrite Hr.
    pose proof (for_each_handle_record_returns records
      {| world := add_log INFO (MsgProcessing n) w;
         success_count := 0; error_count := 0 |}) as Hret.
    destruct (for_each records handle_record _) as [r fr].
    simpl in Hret. subst r. simpl. eauto. }
  destruct event as [| | | | | |entries]; try reflexivity.
  destruct (dict_lookup "Records" entries) as [v|] eqn:Hrec.
  - destruct v; simpl;
      try (unfold lambda_handler, bind, eval; simpl; rewrite Hrec; reflexivity);
      eapply Hok; simpl; rewrite Hrec; reflexivity.
  - eapply Hok; simpl; rewrite Hrec; reflexivity.
Qed.

(** *** Wrappers without a storage record *)

(** X4: a wrapper whose inner records are all JSON objects of another
    event source, or that has no inner record at all, leaves the frame as
    it was: neither a success nor an error, no log line, no copy, whatever
    else the body holds beside ['Records']. *)
Theorem X4_wrapper_without_storage_records_counts_nothing
    record entries (s3_records : list value) fr :
  message_body_of record = Returned (VDict entries) ->
  dict_lookup "Records" entries = Some (VList s3_records) ->
  Forall (fun r => is_object r = true /\ is_storage_record r = false) s3_records ->
  handle_record record fr = (Returned tt, fr).
Proof.
  intros Hbody Hrec Hall. unfold handle_record, try_except.
  rewrite (process_message_wrapped _ _ _ _ Hbody Hrec).
  assert (for_each s3_records process_s3_record fr = (Returned tt, fr)) as ->;
    [|reflexivity].
  clear Hrec. induction Hall as [|r rest [Hobj Htag] _ IH]; [reflexivity|].
  cbn [for_each]. unfold bind.
  assert (process_s3_record r fr = (Returned tt, fr)) as ->; [|exact IH].
  destruct r; try discriminate.
  unfold is_storage_record in Htag. unfold process_s3_record, bind, eval.
  simpl in *. destruct (dict_lookup "eventSource" entries0);
    rewrite Htag; reflexivity.
Qed.

(** *** Storage records *)

Lemma storage_reference_raised (s3_record : value) e :
  storage_reference s3_record = Raised e ->
  e = TypeError \/
  exists key, e = KeyError key /\ In key ["s3"; "bucket"; "name"; "object"; "key"].
Proof.
  unfold storage_reference, getitem.
  repeat match goal with
    | |- context [match ?x with _ => _ end] =>
        lazymatch x with
        | context [match _ with _ => _ end] => fail
        | _ => destruct x
        end; cbn [obind]
    end;
    try discriminate; intros [= <-]; auto;
    right; eexists; (split; [reflexivity|]); simpl; auto 10.
Qed.

(** X5: a storage record whose reference is not all there (no ['s3'],
    ['bucket'], ['name'], ['object'] or ['key'], or something that is not
    a dict on the way) raises [KeyError] or [TypeError] before anything
    is copied or logged; the envelope is then one error, and the records
    behind it are not processed. *)
Theorem X5_storage_record_without_reference_is_one_error
    record entries (s3_record : value) (after : list value) e fr :
  message_body_of record = Returned (VDict entries) ->
  dict_lookup "Records" entries = Some (VList (s3_record :: after)) ->
  is_storage_record s3_record = true ->
  storage_reference s3_record = Raised e ->
  (e = TypeError \/
   exists key, e = KeyError key /\ In key ["s3"; "bucket"; "name"; "object"; "key"]) /\
  process_s3_record s3_record fr = (Raised e, fr) /\
  handle_record record fr = (Returned tt, caught e fr).
Proof.
  intros Hbody Hrec Htag Href.
  assert (process_s3_record s3_record fr = (Raised e, fr)) as Hr.
  { unfold is_storage_record, storage_reference in *.
    unfold process_s3_record. unfold bind at 1, eval at 1.
    destruct (get s3_record "eventSource" VNone) as [tag|e0]; [|discriminate].
    rewrite Htag. unfold bind at 1, eval at 1.
    destruct (obind (obind (getitem s3_record "s3") _) _) as [b|e0];
      cbn [obind] in Href; [|congruence].
    unfold bind at 1, eval at 1.
    destruct (obind (obind (getitem s3_record "s3") _) _) as [k|e0];
      cbn [obind] in Href; congruence. }
  split; [apply (storage_reference_raised _ _ Href)|]. split; [exact Hr|].
  unfold handle_record, try_except.
  rewrite (process_message_wrapped _ _ _ _ Hbody Hrec).
  cbn [for_each]. unfold bind. rewrite Hr. reflexivity.
Qed.

(** What one storage record with a reference does to the calls, with
    the destination configured. *)
Lemma process_s3_record_call (s3_record bucket_name object_key : value) fr dest :
  is_storage_record s3_record = true ->
  storage_reference s3_record = Returned (bucket_name, object_key) ->
  environ (world fr) !! "DESTINATION_BUCKET" = Some dest ->
  let (r, fr') := process_s3_record s3_record fr in
  environ (world fr') = environ (world fr) /\
  copy_calls (world fr')
  = copy_calls (world fr) ++ [copy_request bucket_name object_key dest] /\
  error_count fr' = error_count fr /\
  match fst (s3_copy_object (copy_request bucket_name object_key dest)
               (s3 (world fr))) with
  | CopyDone => r = Returned tt /\ success_count fr' = success_count fr + 1
  | CopyClientError code =>
      if String.eqb code "NoSuchKey"
      then r = Returned tt /\ success_count fr' = success_count fr + 1
      else r = Raised (ClientError code) /\ success_count fr' = success_count fr
  | CopyFailed name =>
      r = Raised (OtherError name) /\ success_count fr' = success_count fr
  end.
Proof.
  intros Htag Href Hdest.
  rewrite (process_s3_record_storage _ _ _ _ Htag Href).
  unfold bind. rewrite in_world_frame.
  rewrite (copy_s3_object_result _ _ _ _ Hdest). cbv zeta.
  destruct (s3_copy_object _ (s3 (world fr))) as [[|code|name] s']; simpl.
  - auto.
  - destruct (String.eqb code "NoSuchKey"); simpl; auto.
  - auto.
Qed.

(** X6: the bucket name and the key of a storage record go to
    [copy_object] as they are: with the destination configured, the
    record makes exactly one call, for that source, whatever the two
    values are (the wrapper branch has no test for empty ones). *)
Theorem X6_storage_reference_is_copied_as_it_is
    (s3_record bucket_name object_key : value) fr dest :
  is_storage_record s3_record = true ->
  storage_reference s3_record = Returned (bucket_name, object_key) ->
  environ (world fr) !! "DESTINATION_BUCKET" = Some dest ->
  copy_calls (world (snd (process_s3_record s3_record fr)))
  = copy_calls (world fr) ++ [copy_request bucket_name object_key dest].
Proof.
  intros Htag Href Hdest.
  pose proof (process_s3_record_call _ _ _ fr _ Htag Href Hdest) as Hc.
  destruct (process_s3_record s3_record fr) as [r fr']. simpl. apply Hc.
Qed.

(** X7: with the destination configured and a storage client that never
    fails (every call returns, or reports [NoSuchKey]), a wrapper whose
    inner records are all storage records with a reference counts one
    success for each and no error, and makes one call for each, in the
    order of the records. *)
Theorem X7_wrapper_of_storage_records_counts_each
    record entries (s3_records : list value) (refs : list (value * value)) fr dest :
  never_fails client ->
  message_body_of record = Returned (VDict entries) ->
  dict_lookup "Records" entries = Some (VList s3_records) ->
  Forall2 (fun r ref => is_storage_record r = true /\
                        storage_reference r = Returned ref) s3_records refs ->
  environ (world fr) !! "DESTINATION_BUCKET" = Some dest ->
  exists fr',
    handle_record record fr = (Returned tt, fr') /\
    success_count fr' = success_count fr + length s3_records /\
    error_count fr' = error_count fr /\
    copy_calls (world fr')
    = copy_calls (world fr)
      ++ map (fun ref => copy_request (fst ref) (snd ref) dest) refs.
Proof.
  intros Hclient Hbody Hrec Hrefs Hdest.
  unfold handle_record, try_except.
  rewrite (process_message_wrapped _ _ _ _ Hbody Hrec). clear Hbody Hrec.
  assert (exists fr',
            for_each s3_records process_s3_record fr = (Returned tt, fr') /\
            success_count fr' = success_count fr + length s3_records /\
            error_count fr' = error_count fr /\
            copy_calls (world fr')
            = copy_calls (world fr)
              ++ map (fun ref => copy_request (fst ref) (snd ref) dest) refs)
    as (fr' & -> & H); [|eauto].
  revert fr Hdest.
  induction Hrefs as [|r [b k] rest refs' [Htag Href] _ IH]; intros fr Hdest.
  - exists fr. simpl. rewrite app_nil_r. repeat split; lia.
  - pose proof (process_s3_record_call _ _ _ fr _ Htag Href Hdest) as Hc.
    pose proof (Hclient (copy_request b k dest) (s3 (world fr))) as Hnf.
    cbn [for_each]. unfold bind.
    destruct (process_s3_record r fr) as [res fr1].
    destruct Hc as (Henv & Hcalls & Herr & Hres).
    assert (res = Returned tt /\ success_count fr1 = success_count fr + 1)
      as [-> Hs].
    { destruct (fst (s3_copy_object _ _)) as [|code|name].
      - exact Hres.
      - subst code. exact Hres.
      - contradiction. }
    destruct (IH fr1) as (fr' & -> & Hs' & He' & Hc').
    { rewrite Henv. exact Hdest. }
    exists fr'. split; [reflexivity|]. simpl.
    rewrite Hc', Hcalls, <- app_assoc. repeat split; simpl; try lia.
Qed.

(** *** Calls, successes and errors *)

#[local] Instance accounted_preorder : PreOrder (@accounted S3).
Proof. split; unfold accounted; [intros fr|intros a b c]; lia. Qed.

#[local] Instance balanced_preorder : PreOrder (@balanced S3).
Proof. split; unfold balanced; [intros fr|intros a b c]; lia. Qed.

(** [copy_s3_object] makes one call when it returns, and at most one
    when it raises. *)
Lemma copy_s3_object_calls (source_bucket source_key : value) w :
  let (r, w') := copy_s3_object source_bucket source_key w in
  match r with
  | Returned _ => length (copy_calls w') = length (copy_calls w) + 1
  | Raised _ =>
      length (copy_calls w) <= length (copy_calls w') /\
      length (copy_calls w') <= length (copy_calls w) + 1
  end.
Proof.
  destruct (environ w !! "DESTINATION_BUCKET") as [dest|] eqn:Hdest.
  - rewrite (copy_s3_object_result _ _ _ _ Hdest). cbv zeta.
    destruct (s3_copy_object _ (s3 w)) as [[|code|name] s']; simpl;
      [|destruct (String.eqb code "NoSuchKey"); simpl|];
      rewrite length_app; simpl; lia.
  - rewrite (copy_s3_object_unset _ _ _ Hdest). lia.
Qed.

Lemma process_s3_record_accounts (s3_record : value) fr :
  let (r, fr') := process_s3_record s3_record fr in
  error_count fr' = error_count fr /\
  match r with
  | Returned _ =>
      length (copy_calls (world fr')) + success_count fr
      = length (copy_calls (world fr)) + success_count fr'
  | Raised _ =>
      success_count fr' = success_count fr /\
      length (copy_calls (world fr)) <= length (copy_calls (world fr')) /\
      length (copy_calls (world fr')) <= length (copy_calls (world fr)) + 1
  end.
Proof.
  unfold process_s3_record, bind, eval.
  destruct (get s3_record "eventSource" VNone) as [tag|e]; [|simpl; lia].
  destruct (eq_str tag "aws:s3"); [|simpl; lia].
  destruct (obind (obind (getitem s3_record "s3") _) _) as [b|e]; [|simpl; lia].
  destruct (obind (obind (getitem s3_record "s3") _) _) as [k|e]; [|simpl; lia].
  rewrite in_world_frame. pose proof (copy_s3_object_calls b k (world fr)) as Hc.
  destruct (copy_s3_object b k (world fr)) as [[[]|e] w']; simpl; lia.
Qed.

Lemma inner_loop_accounts (s3_records : list value) fr :
  let (r, fr') := for_each s3_records process_s3_record fr in
  error_count fr' = error_count fr /\
  match r with
  | Returned _ =>
      length (copy_calls (world fr')) + success_count fr
      = length (copy_calls (world fr)) + success_count fr'
  | Raised _ =>
      length (copy_calls (world fr)) + success_count fr'
      <= length (copy_calls (world fr')) + success_count fr /\
      length (copy_calls (world fr')) + success_count fr
      <= length (copy_calls (world fr)) + success_count fr' + 1
  end.
Proof.
  revert fr. induction s3_records as [|x rest IH]; intros fr; simpl; [lia|].
  unfold bind. pose proof (process_s3_record_accounts x fr) as Hx.
  destruct (process_s3_record x fr) as [[[]|e] fr1]; [|lia].
  specialize (IH fr1).
  destruct (for_each rest process_s3_record fr1) as [[[]|e] fr2]; lia.
Qed.

Lemma process_message_accounts record fr :
  let (r, fr') := process_message record fr in
  match r with
  | Returned _ => accounted fr fr'
  | Raised _ =>
      error_count fr' = error_count fr /\
      length (copy_calls (world fr)) + success_count fr'
      <= length (copy_calls (world fr')) + success_count fr /\
      length (copy_calls (world fr')) + success_count fr
      <= length (copy_calls (world fr)) + success_count fr' + 1
  end.
Proof.
  unfold process_message, accounted, bind, eval.
  destruct (message_body_of record) as [v|e]; [|lia].
  destruct (contains "Records" v) as [[]|e]; [| |lia].
  - destruct (obind (getitem v "Records") iter) as [l|e]; [|lia].
    pose proof (inner_loop_accounts l fr) as Hl.
    destruct (for_each l process_s3_record fr) as [[[]|e] fr']; lia.
  - destruct (obind (get v "bucket" _) _) as [b|e]; [|lia].
    destruct (obind (get v "object" _) _) as [k|e]; [|lia].
    destruct (truthy b && truthy k).
    + rewrite in_world_frame.
      pose proof (copy_s3_object_calls b k (world fr)) as Hc.
      destruct (copy_s3_object b k (world fr)) as [[[]|e] w']; simpl; lia.
    + simpl. lia.
Qed.

Lemma handle_record_accounted record : preserves accounted (handle_record record).
Proof.
  intros fr. pose proof (process_message_accounts record fr) as Hp.
  destruct (handle_record_cases record fr)
    as [(fr' & Hm & ->)|(e & fr' & Hm & ->)]; rewrite Hm in Hp.
  - exact Hp.
  - unfold accounted. simpl. lia.
Qed.

(** X8: over an invocation, every success counted had a call of
    [copy_object] of its own, and every call made was counted, as a success
    or as an error: the calls made are at least [success_count] and at
    most [success_count + error_count]. *)
Theorem X8_calls_between_successes_and_all_counts event (records : list value) w :
  batch_records event = Some records ->
  exists (success errors : nat) (w' : World S3),
    lambda_handler event w
    = (Returned {| statusCode := 200; body := json_dumps_counts success errors |}, w') /\
    length (copy_calls w) + success <= length (copy_calls w') /\
    length (copy_calls w') <= length (copy_calls w) + success + errors.
Proof.
  intros Hb. rewrite (lambda_handler_batch _ _ _ Hb).
  pose proof (preserves_for_each accounted records handle_record
                handle_record_accounted
                {| world := add_log INFO (MsgProcessing (length records)) w;
                   success_count := 0; error_count := 0 |}) as [H1 H2].
  simpl in H1, H2. cbv zeta. eexists _, _, _. split; [reflexivity|].
  simpl. lia.
Qed.

(** *** Errors and their log lines *)

Lemma error_lines_snoc (lines : list (level * message)) entry :
  error_lines (lines ++ [entry])
  = error_lines lines + (if reports_error entry then 1 else 0).
Proof. unfold error_lines. rewrite sum_list_with_app. simpl. lia. Qed.

(** [copy_s3_object] writes no line that reports a counted error. *)
Lemma copy_s3_object_error_lines (source_bucket source_key : value) w :
  error_lines (log (snd (copy_s3_object source_bucket source_key w)))
  = error_lines (log w).
Proof.
  destruct (environ w !! "DESTINATION_BUCKET") as [dest|] eqn:Hdest.
  - rewrite (copy_s3_object_result _ _ _ _ Hdest). cbv zeta.
    destruct (s3_copy_object _ (s3 w)) as [[|code|name] s']; simpl;
      [|destruct (String.eqb code "NoSuchKey"); simpl|];
      rewrite !error_lines_snoc; simpl; lia.
  - rewrite (copy_s3_object_unset _ _ _ Hdest). reflexivity.
Qed.

Lemma in_world_copy_balanced (b k : value) :
  preserves balanced (in_world (copy_s3_object b k)).
Proof.
  intros fr. rewrite in_world_frame. unfold balanced. simpl.
  rewrite copy_s3_object_error_lines. lia.
Qed.

Lemma incr_success_balanced : preserves (@balanced S3) incr_success.
Proof. intros fr. unfold balanced. simpl. lia. Qed.

Lemma process_message_balanced record : preserves balanced (process_message record).
Proof.
  unfold process_message.
  apply preserves_bind; [tc_solve|apply preserves_eval; tc_solve|intros v].
  apply preserves_bind; [tc_solve|apply preserves_eval; tc_solve|intros []].
  - unfold process_s3_record. keeps.
    + apply in_world_copy_balanced.
    + apply incr_success_balanced.
  - apply preserves_bind; [tc_solve|apply preserves_eval; tc_solve|intros b].
    apply preserves_bind; [tc_solve|apply preserves_eval; tc_solve|intros k].
    destruct (truthy b && truthy k).
    + keeps; [apply in_world_copy_balanced|apply incr_success_balanced].
    + intros fr. unfold balanced. simpl. rewrite error_lines_snoc. simpl. lia.
Qed.

Lemma handle_record_balanced record : preserves balanced (handle_record record).
Proof.
  unfold handle_record.
  apply preserves_try_except; [tc_solve|apply process_message_balanced|].
  intros e fr. unfold balanced. simpl. rewrite error_lines_snoc. simpl. lia.
Qed.

(** X9: every counted error has its log line and no other line looks
    like one: over an invocation, [error_count] is the number of lines
    written by the per-envelope catch ("Error processing message") and by
    the test of the direct reference ("Unexpected message format"). *)
Theorem X9_error_count_is_the_number_of_error_lines event (records : list value) w :
  batch_records event = Some records ->
  exists (success errors : nat) (w' : World S3),
    lambda_handler event w
    = (Returned {| statusCode := 200; body := json_dumps_counts success errors |}, w') /\
    error_lines (log w') = error_lines (log w) + errors.
Proof.
  intros Hb. rewrite (lambda_handler_batch _ _ _ Hb).
  pose proof (preserves_for_each balanced records handle_record
                handle_record_balanced
                {| world := add_log INFO (MsgProcessing (length records)) w;
                   success_count := 0; error_count := 0 |}) as Hbal.
  unfold balanced in Hbal. simpl in Hbal. rewrite error_lines_snoc in Hbal.
  cbv zeta. eexists _, _, _. split; [reflexivity|].
  simpl. rewrite error_lines_snoc. simpl in *. lia.
Qed.

(** *** The validator and the handler *)

(** X10: on a body without ['Records'] the validator returns [True]
    exactly when the handler finds a bucket name and an object key that
    are both true, and the handler then goes on to copy that reference. *)
Theorem X10_validator_accepts_the_direct_references_the_handler_copies entries :
  dict_lookup "Records" entries = None ->
  (validate_s3_notification (VDict entries) = Returned true <->
   exists bucket_name object_key,
     direct_reference (VDict entries) = Returned (bucket_name, object_key) /\
     truthy bucket_name && truthy object_key = true) /\
  (forall bucket_name object_key record fr,
     message_body_of record = Returned (VDict entries) ->
     direct_reference (VDict entries) = Returned (bucket_name, object_key) ->
     truthy bucket_name && truthy object_key = true ->
     process_message record fr
     = (in_world (copy_s3_object bucket_name object_key) ;; incr_success) fr).
Proof.
  intros Hrec. split.
  - unfold validate_s3_notification, direct_reference, and_then. simpl.
    rewrite Hrec. simpl.
    destruct (dict_lookup "bucket" entries) as [[| | | | | |bucket]|]; simpl;
      destruct (dict_lookup "object" entries) as [[| | | | | |object]|]; simpl;
      repeat match goal with
        | |- context [dict_lookup ?k ?d] => destruct (dict_lookup k d); simpl
        end;
      repeat match goal with
        | |- context [truthy ?v] =>
            lazymatch v with
            | VNone => fail
            | _ => destruct (truthy v) eqn:?; simpl
            end
        end;
      (split;
       [intros Hv;
        first [discriminate Hv
              |eexists _, _; split; [reflexivity|]; simpl;
               repeat match goal with H : truthy _ = _ |- _ => rewrite H end;
               reflexivity]
       |intros (? & ? & Href & Ht);
        first [discriminate Href
              |reflexivity
              |injection Href as <- <-; simpl in Ht;
               repeat match goal with
                 | H : truthy _ = _ |- _ => rewrite H in Ht
                 end; simpl in Ht; rewrite ?andb_false_r in Ht;
               congruence]]).
  - intros b k record fr Hbody Href Ht.
    apply process_message_copies_once. exists entries. split; [exact Hbody|].
    left. auto.
Qed.

(** X11: the validator never returns [True] for a body that is not a
    JSON object: it returns [False], or raises [TypeError]. *)
Theorem X11_validator_accepts_only_objects (message_body : value) :
  is_object message_body = false ->
  validate_s3_notification message_body = Returned false \/
  validate_s3_notification message_body = Raised TypeError.
Proof.
  unfold validate_s3_notification, and_then.
  destruct message_body as [| | | |s|items|]; simpl; try discriminate; auto;
    intros _.
  - destruct (is_substring "Records" s); simpl; auto.
    destruct (is_substring "bucket" s); simpl; auto.
    destruct (is_substring "object" s); simpl; auto.
  - destruct (existsb _ items); simpl; auto.
    destruct (existsb _ items); simpl; auto.
    destruct (existsb _ items); simpl; auto.
Qed.

(** X12: on bodies of the right shape (inner records, ['s3'], ['bucket']
    and ['object'] are JSON objects where present) the validator does not
    raise. It returns [True] for a wrapper exactly when some inner record
    is tagged ["aws:s3"] and its ['s3'] has a ['bucket'] and an ['object'],
    and for a direct reference exactly when the bucket name and the object
    key are both true. *)
Theorem X12_validator_on_bodies_of_the_right_shape (message_body : value) :
  well_formed_body message_body = true ->
  validate_s3_notification message_body
  = Returned
      match field ["Records"] message_body with
      | Some (VList s3_records) =>
          existsb (fun r => is_storage_record r && has_populated_reference r)
            s3_records
      | Some _ => false
      | None =>
          negb (missing_or_empty (field ["bucket"; "name"] message_body)) &&
          negb (missing_or_empty (field ["object"; "key"] message_body))
      end.
Proof. apply validate_s3_notification_well_formed. Qed.

(** X13: in a wrapper the validator stops at the first record that
    passes: with records of the right shape up to a storage record whose
    ['s3'] has a ['bucket'] and an ['object'], it returns [True] whatever
    stands behind that record, and whether or not the bucket has a name
    and the object a key. *)
Theorem X13_validator_stops_at_the_first_valid_record
    entries (before after : list value) (s3_record : value) :
  dict_lookup "Records" entries = Some (VList (before ++ s3_record :: after)) ->
  forallb well_formed_record before = true ->
  well_formed_record s3_record = true ->
  is_storage_record s3_record = true ->
  has_populated_reference s3_record = true ->
  validate_s3_notification (VDict entries) = Returned true.
Proof.
  intros Hrec Hbefore Hr Htag Href.
  unfold validate_s3_notification. simpl. rewrite Hrec. simpl.
  clear Hrec. induction before as [|x before IH]; simpl in *.
  - rewrite (valid_s3_record_well_formed _ Hr), Htag, Href. reflexivity.
  - apply andb_true_iff in Hbefore as [Hx Hbefore].
    rewrite (valid_s3_record_well_formed _ Hx). simpl.
    destruct (is_storage_record x && has_populated_reference x); simpl; auto.
Qed.

(** *** Envelopes without inner records *)

(** X14: an envelope that is not a wrapper (its body cannot be read, or
    is not a JSON object, or is a JSON object without ['Records']) is
    counted exactly once, as a success or as an error. *)
Theorem X14_envelope_without_records_counts_once record fr :
  match message_body_of record with
  | Returned (VDict entries) => dict_lookup "Records" entries = None
  | _ => True
  end ->
  let fr' := snd (handle_record record fr) in
  success_count fr' + error_count fr'
  = success_count fr + error_count fr + 1.
Proof.
  intros Hshape.
  assert (let (r, fr') := process_message record fr in
          match r with
          | Returned _ =>
              success_count fr' + error_count fr'
              = success_count fr + error_count fr + 1
          | Raised _ =>
              success_count fr' + error_count fr'
              = success_count fr + error_count fr
          end) as Hp.
  { unfold process_message, bind, eval.
    destruct (message_body_of record) as [v|e]; [|simpl; lia].
    destruct v as [| b | z | f | s | items | entries]; simpl; try lia.
    - destruct (is_substring "Records" s); simpl; lia.
    - destruct (existsb _ items); simpl; lia.
    - rewrite Hshape.
      destruct (obind (match dict_lookup "bucket" entries with _ => _ end) _)
        as [bucket_name|e]; [|simpl; lia].
      destruct (obind (match dict_lookup "object" entries with _ => _ end) _)
        as [object_key|e]; [|simpl; lia].
      destruct (truthy bucket_name && truthy object_key).
      + rewrite in_world_frame.
        destruct (copy_s3_object bucket_name object_key (world fr))
          as [[[]|e] w']; simpl; lia.
      + simpl. lia. }
  destruct (handle_record_cases record fr)
    as [(fr' & Hm & ->)|(e & fr' & Hm & ->)]; rewrite Hm in Hp; simpl; lia.
Qed.

End Properties.

(** C9: the validator takes a parsed body and nothing else (it reads no
    state, logs nothing and calls nothing), but it raises where it should
    return [False]: on a body
    that names its bucket and its object by strings, which has no bucket
    name and no object key, [message_body['bucket'].get] raises
    [AttributeError]; on a wrapper whose inner record is a number,
    [record.get] does. *)
Theorem C9_validator_raises_on_malformed_bodies :
  spec_is_valid_reference Sample.flat_reference = false /\
  validate_s3_notification Sample.flat_reference = Raised AttributeError /\
  spec_is_valid_reference Sample.wrapper_of_number = false /\
  validate_s3_notification Sample.wrapper_of_number = Raised AttributeError.
Proof. repeat split; reflexivity. Qed.

(** ** The theorems at the sample inputs *)

Section Instances.

Import Sample.

Lemma copies_once_direct_a :
  copies_once direct_a (VStr "src") (VStr "folder/a.txt").
Proof.
  eexists. split; [vm_compute; reflexivity|].
  left. repeat split; reflexivity.
Defined.

Lemma copies_once_direct_not_found :
  copies_once direct_not_found (VStr "src") (VStr "missing.txt").
Proof.
  eexists. split; [vm_compute; reflexivity|].
  left. repeat split; reflexivity.
Defined.

(** A batch of six envelopes, of every kind, returns 200: four copies
    counted as successes, and four envelopes that ended in an error (a
    failed copy, a direct reference without a key, a text that is not
    JSON, a body that is an array), all four in [error_count]. *)
Lemma C1_witness :
  batch_records (event_of mixed_batch) = Some mixed_batch /\
  exists (resp : Response) (w' : World Store) (fr : Frame Store),
    lambda_handler (event_of mixed_batch) world0 = (Returned resp, w') /\
    statusCode resp = 200%Z /\
    body resp = json_dumps_counts 4 4 /\
    success_count fr = 4 /\
    error_count fr = 4 /\
    errors_along mixed_batch
      {| world := add_log INFO (MsgProcessing (length mixed_batch)) world0;
         success_count := 0; error_count := 0 |} = 4.
Proof.
  split; [reflexivity|].
  destruct (C1_handler_returns_200_with_counts (event_of mixed_batch)
              mixed_batch world0 eq_refl)
    as (resp & w' & fr & Hh & Hloop & Hstatus & Hbody & _ & Herr).
  assert (fr = snd (for_each mixed_batch handle_record
                      {| world := add_log INFO (MsgProcessing (length mixed_batch)) world0;
                         success_count := 0; error_count := 0 |})) as Hfr.
  { rewrite Hloop. reflexivity. }
  assert (success_count fr = 4) as Hs.
  { rewrite Hfr. vm_compute. reflexivity. }
  assert (error_count fr = 4) as He.
  { rewrite Hfr. vm_compute. reflexivity. }
  exists resp, w', fr.
  split; [exact Hh|]. split; [exact Hstatus|].
  split; [rewrite Hbody, Hs, He; reflexivity|].
  split; [exact Hs|]. split; [exact He|].
  rewrite <- Herr. exact He.
Defined.

(** A missing source object is a warning and a success. *)
Lemma C2_witness :
  let w2 := add_log WARNING (MsgNotFound (VStr "missing.txt"))
              (add_call (copy_request (VStr "src") (VStr "missing.txt") "dest") store0
                 (add_log INFO (MsgCopying (VStr "src") (VStr "missing.txt") "dest")
                    world0)) in
  copy_s3_object (VStr "src") (VStr "missing.txt") world0 = (Returned tt, w2) /\
  handle_record direct_not_found (frame_of world0)
  = (Returned tt, add_success (set_world w2 (frame_of world0))).
Proof.
  exact (C2_not_found_is_swallowed_other_errors_counted
           direct_not_found (VStr "src") (VStr "missing.txt") (frame_of world0) "dest"
           copies_once_direct_not_found eq_refl).
Defined.

(** A wrapper of three storage records whose objects exist: three
    successes. *)
Lemma C3_witness :
  let fr' := snd (for_each
                    [VDict [("eventSource", VStr "aws:s3");
                            ("s3", VDict [("bucket", VDict [("name", VStr "src")]);
                                          ("object", VDict [("key", VStr "folder/a.txt")])])];
                     VDict [("eventSource", VStr "aws:s3");
                            ("s3", VDict [("bucket", VDict [("name", VStr "src")]);
                                          ("object", VDict [("key", VStr "b.txt")])])];
                     VDict [("eventSource", VStr "aws:s3");
                            ("s3", VDict [("bucket", VDict [("name", VStr "src")]);
                                          ("object", VDict [("key", VStr "c.txt")])])]]
                    process_s3_record (frame_of world0)) in
  handle_record wrapper_three (frame_of world0) = (Returned tt, fr') /\
  success_count fr' = 3 /\
  error_count fr' = 0.
Proof.
  exact (C3_inner_records_until_first_failure wrapper_three _ _ (frame_of world0)
           eq_refl eq_refl).
Defined.

(** The second record's object exists, and the record is never looked
    at: the first record's copy fails, the envelope counts one error and
    no success, and one call of [copy_object] was made. *)
Lemma C3_counterexample :
  exists entries first second,
    message_body_of wrapper_first_fails = Returned (VDict entries) /\
    dict_lookup "Records" entries = Some (VList [first; second]) /\
    is_storage_record first = true /\
    is_storage_record second = true /\
    fst (process_s3_record second (frame_of world0)) = Returned tt /\
    let fr' := snd (handle_record wrapper_first_fails (frame_of world0)) in
    success_count fr' = 0 /\
    error_count fr' = 1 /\
    copy_calls (world fr') = [copy_request (VStr "nope") (VStr "a.txt") "dest"].
Proof.
  eexists _, _, _. split; [vm_compute; reflexivity|].
  repeat split; vm_compute; reflexivity.
Qed.

(** Without the configuration the envelope is one more error. *)
Lemma C4_witness :
  copy_s3_object (VStr "src") (VStr "folder/a.txt") world_unset
  = (Raised (KeyError "DESTINATION_BUCKET"), world_unset) /\
  process_message direct_a (frame_of world_unset)
  = (Raised (KeyError "DESTINATION_BUCKET"), frame_of world_unset) /\
  handle_record direct_a (frame_of world_unset)
  = (Returned tt, caught (KeyError "DESTINATION_BUCKET") (frame_of world_unset)) /\
  forall (rest : list value),
  exists (success errors : nat) (w' : World Store),
    lambda_handler (VDict [("Records", VList (direct_a :: rest))]) world_unset
    = (Returned {| statusCode := 200; body := json_dumps_counts success errors |}, w') /\
    1 <= errors.
Proof.
  exact (C4_unset_destination_is_counted_as_error
           direct_a (VStr "src") (VStr "folder/a.txt") (frame_of world_unset)
           copies_once_direct_a eq_refl).
Defined.

(** With [DESTINATION_BUCKET] unset and an envelope that comes to a copy,
    the invocation does not fail: it returns 200 and one error. *)
Lemma C4_counterexample :
  environ world_unset !! "DESTINATION_BUCKET" = None /\
  copies_once direct_a (VStr "src") (VStr "folder/a.txt") /\
  fst (lambda_handler (event_of [direct_a]) world_unset)
  = Returned {| statusCode := 200; body := json_dumps_counts 0 1 |} /\
  log (snd (lambda_handler (event_of [direct_a]) world_unset))
  = [(INFO, MsgProcessing 1);
     (ERROR, MsgErrorProcessing (KeyError "DESTINATION_BUCKET"));
     (INFO, MsgComplete 0 1)].
Proof.
  split; [reflexivity|]. split; [exact copies_once_direct_a|].
  split; vm_compute; reflexivity.
Qed.

(** The copy of ["folder/a.txt"] is asked for under that key, and the
    store then holds the report in the destination bucket, content and
    metadata alike. *)
Example copy_of_folder_a :
  let w' := snd (lambda_handler (event_of [direct_a]) world0) in
  copy_calls w' = [copy_request (VStr "src") (VStr "folder/a.txt") "dest"] /\
  Key (copy_request (VStr "src") (VStr "folder/a.txt") "dest") = VStr "folder/a.txt" /\
  objects (s3 w') !! ("dest", "folder/a.txt") = Some report /\
  objects (s3 w') !! ("src", "folder/a.txt") = Some report.
Proof. repeat split; vm_compute; reflexivity. Qed.

(** An event whose ['Records'] is [null] is not a batch: [len] raises
    before the loop, outside every [try]. *)
Example lambda_handler_without_a_batch :
  batch_records (VDict [("Records", VNone)]) = None /\
  lambda_handler (VDict [("Records", VNone)]) world0 = (Raised TypeError, world0).
Proof. split; reflexivity. Qed.

(** A direct reference without an object key. *)
Lemma C6_witness :
  let body := VDict [("bucket", VDict [("name", VStr "src")]); ("object", VDict [])] in
  let fr' := add_error (set_world
               (add_log WARNING (MsgUnexpectedFormat body) world0)
               (frame_of world0)) in
  process_message direct_no_key (frame_of world0) = (Returned tt, fr') /\
  handle_record direct_no_key (frame_of world0) = (Returned tt, fr').
Proof.
  exact (proj2 (C6_incomplete_direct_reference_counts_one_error
                  direct_no_key _ (frame_of world0) eq_refl eq_refl eq_refl)
           eq_refl eq_refl).
Defined.

(** A direct-form body whose bucket is [null] has no bucket name; the
    [try] block raises, and the log holds an error and no warning. *)
Lemma C6_counterexample :
  exists entries,
    message_body_of direct_null_bucket = Returned (VDict entries) /\
    dict_lookup "Records" entries = None /\
    missing_or_empty (field ["bucket"; "name"] (VDict entries)) = true /\
    process_message direct_null_bucket (frame_of world0)
    = (Raised AttributeError, frame_of world0) /\
    log (world (snd (handle_record direct_null_bucket (frame_of world0))))
    = [(ERROR, MsgErrorProcessing AttributeError)].
Proof.
  eexists. split; [vm_compute; reflexivity|].
  repeat split; vm_compute; reflexivity.
Qed.

(** A notification of another service between two storage records. *)
Lemma C7_witness :
  let first := VDict [("eventSource", VStr "aws:s3");
                      ("s3", VDict [("bucket", VDict [("name", VStr "src")]);
                                    ("object", VDict [("key", VStr "b.txt")])])] in
  let other := VDict [("eventSource", VStr "aws:sns");
                      ("Sns", VDict [("Message", VStr "hello")])] in
  let last := VDict [("eventSource", VStr "aws:s3");
                     ("s3", VDict [("bucket", VDict [("name", VStr "src")]);
                                   ("object", VDict [("key", VStr "c.txt")])])] in
  (forall fr', process_s3_record other fr' = (Returned tt, fr')) /\
  handle_record wrapper_with_sns (frame_of world0)
  = try_except (for_each ([first] ++ [last]) process_s3_record) on_exception
      (frame_of world0).
Proof.
  intros first other last.
  exact (C7_other_event_source_is_skipped wrapper_with_sns _ [first] [last] other
           (frame_of world0) eq_refl eq_refl eq_refl eq_refl).
Defined.

(** The counters of the batch of six against its nine units. *)
Lemma C8_witness :
  batch_records (event_of mixed_batch) = Some mixed_batch /\
  exists (success errors : nat) (w' : World Store),
    lambda_handler (event_of mixed_batch) world0
    = (Returned {| statusCode := 200; body := json_dumps_counts success errors |}, w') /\
    success + errors <= units_attempted mixed_batch.
Proof.
  split; [reflexivity|].
  apply (C8_counters_bounded_by_units (event_of mixed_batch) mixed_batch world0).
  reflexivity.
Defined.

(** A body that is a JSON array. *)
Lemma C10_witness :
  exists e fr',
    fr' = caught e (frame_of world0) /\
    handle_record array_body (frame_of world0) = (Returned tt, fr') /\
    error_count fr' = error_count (frame_of world0) + 1 /\
    success_count fr' = success_count (frame_of world0) /\
    copy_calls (world fr') = copy_calls (world (frame_of world0)) /\
    s3 (world fr') = s3 (world (frame_of world0)) /\
    for_each [array_body; direct_a] handle_record (frame_of world0)
    = for_each [direct_a] handle_record fr'.
Proof.
  apply (C10_non_object_body_counts_one_error array_body
           (VList [VInt 1; VInt 2]) [direct_a] (frame_of world0));
    reflexivity.
Defined.

(** A body that is not JSON. *)
Lemma X1_witness :
  message_body_of malformed = Raised JSONDecodeError /\
  handle_record malformed (frame_of world0)
  = (Returned tt, caught JSONDecodeError (frame_of world0)).
Proof.
  split; [reflexivity|].
  exact (proj1 (proj2 (proj2
           (X1_unreadable_body_counts_one_error malformed JSONDecodeError []
              (frame_of world0) eq_refl)))).
Defined.

(** A wrapper with no inner record, beside a complete direct reference. *)
Lemma X4_witness :
  handle_record wrapper_empty_with_reference (frame_of world0)
  = (Returned tt, frame_of world0).
Proof.
  exact (X4_wrapper_without_storage_records_counts_nothing
           wrapper_empty_with_reference _ [] (frame_of world0)
           eq_refl eq_refl (List.Forall_nil _)).
Defined.

(** A storage record whose object has no key, before a complete one. *)
Lemma X5_witness :
  handle_record wrapper_without_key (frame_of world0)
  = (Returned tt, caught (KeyError "key") (frame_of world0)).
Proof.
  exact (proj2 (proj2
           (X5_storage_record_without_reference_is_one_error
              wrapper_without_key _ _ _ (KeyError "key") (frame_of world0)
              eq_refl eq_refl eq_refl eq_refl))).
Defined.

(** A storage record with an empty bucket name and an empty key. *)
Lemma X6_witness :
  copy_calls (world (snd (process_s3_record (storage_record_of "" "")
                            (frame_of world0))))
  = copy_calls (world (frame_of world0))
    ++ [copy_request (VStr "") (VStr "") "dest"].
Proof.
  exact (X6_storage_reference_is_copied_as_it_is
           (storage_record_of "" "") (VStr "") (VStr "") (frame_of world0) "dest"
           eq_refl eq_refl eq_refl).
Defined.

Lemma counting_client_never_fails : never_fails counting_client.
Proof. intros req copies. exact I. Defined.

(** Three storage records on the service that accepts every copy. *)
Lemma X7_witness :
  exists fr',
    handle_record (client := counting_client) wrapper_three counting_frame
    = (Returned tt, fr') /\
    success_count fr' = success_count counting_frame + 3 /\
    error_count fr' = error_count counting_frame /\
    copy_calls (world fr')
    = copy_calls (world counting_frame)
      ++ [copy_request (VStr "src") (VStr "folder/a.txt") "dest";
          copy_request (VStr "src") (VStr "b.txt") "dest";
          copy_request (VStr "src") (VStr "c.txt") "dest"].
Proof.
  refine (X7_wrapper_of_storage_records_counts_each (client := counting_client)
            wrapper_three _
            [storage_record_of "src" "folder/a.txt"; storage_record_of "src" "b.txt";
             storage_record_of "src" "c.txt"]
            [(VStr "src", VStr "folder/a.txt"); (VStr "src", VStr "b.txt");
             (VStr "src", VStr "c.txt")]
            counting_frame "dest" counting_client_never_fails eq_refl eq_refl _ eq_refl).
  repeat constructor.
Defined.

(** The batch of six: five calls, four successes, four errors. *)
Lemma X8_witness :
  batch_records (event_of mixed_batch) = Some mixed_batch /\
  exists (success errors : nat) (w' : World Store),
    lambda_handler (event_of mixed_batch) world0
    = (Returned {| statusCode := 200; body := json_dumps_counts success errors |}, w') /\
    length (copy_calls world0) + success <= length (copy_calls w') /\
    length (copy_calls w') <= length (copy_calls world0) + success + errors.
Proof.
  split; [reflexivity|].
  apply (X8_calls_between_successes_and_all_counts (event_of mixed_batch)
           mixed_batch world0).
  reflexivity.
Defined.

Lemma X9_witness :
  batch_records (event_of mixed_batch) = Some mixed_batch /\
  exists (success errors : nat) (w' : World Store),
    lambda_handler (event_of mixed_batch) world0
    = (Returned {| statusCode := 200; body := json_dumps_counts success errors |}, w') /\
    error_lines (log w') = error_lines (log world0) + errors.
Proof.
  split; [reflexivity|].
  apply (X9_error_count_is_the_number_of_error_lines (event_of mixed_batch)
           mixed_batch world0).
  reflexivity.
Defined.

(** A complete direct reference is valid and is copied. *)
Lemma X10_witness :
  validate_s3_notification direct_body_a = Returned true <->
  exists bucket_name object_key,
    direct_reference direct_body_a = Returned (bucket_name, object_key) /\
    truthy bucket_name && truthy object_key = true.
Proof.
  exact (proj1 (X10_validator_accepts_the_direct_references_the_handler_copies
                  (decoder := sample_decoder) (client := sample_client)
                  [("bucket", VDict [("name", VStr "src")]);
                   ("object", VDict [("key", VStr "folder/a.txt")])] eq_refl)).
Defined.

(** A body that is a string in which both words occur. *)
Lemma X11_witness :
  validate_s3_notification (VStr "bucket and object") = Returned false \/
  validate_s3_notification (VStr "bucket and object") = Raised TypeError.
Proof.
  exact (X11_validator_accepts_only_objects (VStr "bucket and object") eq_refl).
Defined.

Lemma X12_witness :
  well_formed_body direct_body_a = true /\
  validate_s3_notification direct_body_a = Returned true.
Proof.
  split; [reflexivity|].
  exact (X12_validator_on_bodies_of_the_right_shape direct_body_a eq_refl).
Defined.

(** A number behind the first valid record is never looked at. *)
Lemma X13_witness :
  validate_s3_notification
    (VDict [("Records",
             VList [VDict [("eventSource", VStr "aws:sns")];
                    VDict [("eventSource", VStr "aws:s3");
                           ("s3", VDict [("bucket", VDict []); ("object", VDict [])])];
                    VInt 5])])
  = Returned true.
Proof.
  exact (X13_validator_stops_at_the_first_valid_record
           [("Records",
             VList [VDict [("eventSource", VStr "aws:sns")];
                    VDict [("eventSource", VStr "aws:s3");
                           ("s3", VDict [("bucket", VDict []); ("object", VDict [])])];
                    VInt 5])]
           [VDict [("eventSource", VStr "aws:sns")]] [VInt 5]
           (VDict [("eventSource", VStr "aws:s3");
                   ("s3", VDict [("bucket", VDict []); ("object", VDict [])])])
           eq_refl eq_refl eq_refl eq_refl eq_refl).
Defined.

(** A complete direct reference counts once. *)
Lemma X14_witness :
  let fr' := snd (handle_record direct_a (frame_of world0)) in
  success_count fr' + error_count fr'
  = success_count (frame_of world0) + error_count (frame_of world0) + 1.
Proof.
  exact (X14_envelope_without_records_counts_once direct_a (frame_of world0)
           eq_refl).
Defined.

End Instances.
